(** * redirector: a catch-all HTTP redirect server

    Shallow embedding of [main.go] (package [main] of firefart/redirector)
    and of the parts of the Go libraries it calls, followed by the
    properties of the handler chain and of the process life cycle.

    Layout:
    - [GoStrings], [GoPath], [NetURL]: byte-string helpers, [path.Clean],
      [path.Split], and the part of [net/url] that [http.Redirect] and the
      router consult;
    - [NetHTTP]: requests, the [http.ResponseWriter] contract, handlers as
      programs over that contract, [http.Redirect], [http.Error];
    - [Logrus], [Handlers], [Mux]: the logger, gorilla's combined logging
      handler and gorilla's router;
    - the functions of [main.go] under their own names;
    - [Lifecycle]: the two threads of [main] as a transition system.

    The libraries are not part of the repository. Their functions are
    modelled after the libraries' documentation and behaviour, as far as
    the program depends on them; every model says what it leaves out.

    Go strings are byte strings; they are modelled by [string], whose
    characters are 8-bit. *)

From Stdlib Require Import Ascii String ZArith Lia.
From stdpp Require Import gmap strings list.

Open Scope string_scope.

(** ** Byte strings *)

Module GoStrings.

(** [lo <= c && c <= hi] on bytes. *)
Definition between (lo hi c : ascii) : bool :=
  ((N_of_ascii lo <=? N_of_ascii c) && (N_of_ascii c <=? N_of_ascii hi))%N.

Definition isLower (c : ascii) : bool := between "a" "z" c.
Definition isUpper (c : ascii) : bool := between "A" "Z" c.
Definition isAlpha (c : ascii) : bool := isLower c || isUpper c.
Definition isDigit (c : ascii) : bool := between "0" "9" c.

(** The double quote, written by its code. *)
Definition dquote : string := String (ascii_of_nat 34) "".

(** The line feed. *)
Definition newline : string := String (ascii_of_nat 10) "".

(** [strings.HasPrefix(s, p)]. *)
Definition HasPrefix (s p : string) : bool := String.prefix p s.

(** [strings.HasSuffix(s, p)]. *)
Definition HasSuffix (s p : string) : bool :=
  String.prefix (String.rev p) (String.rev s).

(** [strings.Cut(s, sep)] for a one-byte separator: the text before the
    first [sep], the text after it, and whether [sep] occurs. *)
Fixpoint Cut (sep : ascii) (s : string) : string * string * bool :=
  match s with
  | "" => ("", "", false)
  | String c s' =>
      if Ascii.eqb c sep then ("", s', true)
      else let '(b, a, f) := Cut sep s' in (String c b, a, f)
  end.

(** [strings.Contains(s, sep)] for a one-byte [sep]. *)
Definition ContainsByte (sep : ascii) (s : string) : bool := snd (Cut sep s).

(** [strings.Count(s, sep)] for a one-byte [sep]. *)
Fixpoint Count (sep : ascii) (s : string) : nat :=
  match s with
  | "" => 0
  | String c s' => (if Ascii.eqb c sep then 1 else 0) + Count sep s'
  end.

(** [strings.Split(s, sep)] for a one-byte [sep]. *)
Fixpoint Split (sep : ascii) (s : string) : list string :=
  match s with
  | "" => [""]
  | String c s' =>
      if Ascii.eqb c sep then "" :: Split sep s'
      else match Split sep s' with
           | hd :: tl => String c hd :: tl
           | [] => [String c ""]
           end
  end.

(** [strings.Join(l, sep)]. *)
Fixpoint Join (sep : string) (l : list string) : string :=
  match l with
  | [] => ""
  | [x] => x
  | x :: tl => x +:+ sep +:+ Join sep tl
  end.

(** The text after the last [sep], or all of [s] when there is none
    ([s[strings.LastIndex(s, sep)+1:]]). *)
Fixpoint afterLast (sep : ascii) (s : string) : string :=
  match s with
  | "" => ""
  | String c s' =>
      if ContainsByte sep s' then afterLast sep s'
      else if Ascii.eqb c sep then s' else s
  end.

(** [strings.ToLower] on ASCII letters. *)
Definition lowerByte (c : ascii) : ascii :=
  if isUpper c then ascii_of_N (N_of_ascii c + 32) else c.

Fixpoint ToLower (s : string) : string :=
  match s with
  | "" => ""
  | String c s' => String (lowerByte c) (ToLower s')
  end.

Fixpoint forallb (p : ascii -> bool) (s : string) : bool :=
  match s with
  | "" => true
  | String c s' => p c && forallb p s'
  end.

Definition hexDigit (upper : bool) (n : N) : ascii :=
  if (n <? 10)%N then ascii_of_N (48 + n)
  else ascii_of_N ((if upper then 55 else 87) + n).

(** ["%XY"] for the byte [c]. *)
Definition percentHex (upper : bool) (c : ascii) : string :=
  let n := N_of_ascii c in
  String "%" (String (hexDigit upper (n / 16)) (String (hexDigit upper (n mod 16)) "")).

Definition isHex (c : ascii) : bool :=
  isDigit c || between "a" "f" c || between "A" "F" c.

End GoStrings.

(** ** Package [path] *)

Module GoPath.
Import GoStrings.

(** [path.Split]: the directory, up to and including the final slash, and
    the file name after it. *)
Fixpoint Split (p : string) : string * string :=
  match p with
  | "" => ("", "")
  | String c p' =>
      let '(d, f) := Split p' in
      if Ascii.eqb c "/" || negb (String.eqb d "") then (String c d, f)
      else ("", String c f)
  end.

(** One element of the path, against the elements kept so far (last
    one first). A [..] removes the element before it; at the start of a
    rooted path it is dropped, at the start of a relative path it is
    kept. *)
Definition cleanElem (rooted : bool) (kept : list string) (e : string)
  : list string :=
  if String.eqb e "" || String.eqb e "." then kept
  else if String.eqb e ".." then
    match kept with
    | top :: rest =>
        if String.eqb top ".." then ".." :: kept else rest
    | [] => if rooted then [] else [".."]
    end
  else e :: kept.

(** [path.Clean]: the shortest path equivalent to [p] by lexical
    processing (single slashes, no [.] element, no inner [..], no [..]
    at the root, no trailing slash except for the root; the empty
    result is [.]). *)
Definition Clean (p : string) : string :=
  if String.eqb p "" then "."
  else
    let rooted := HasPrefix p "/" in
    let kept := fold_left (cleanElem rooted) (GoStrings.Split "/" p) [] in
    let body := Join "/" (rev kept) in
    if rooted then "/" +:+ body
    else if String.eqb body "" then "." else body.

End GoPath.

(** ** Package [net/url] *)

Module NetURL.
Import GoStrings.

(** The fields of [url.URL] that the program and its libraries read.
    The server fills [Path] and [RawQuery] of the request URL from the
    request target; [Scheme] and [Host] are what [url.Parse] finds in a
    redirect target. *)
Record URL := mkURL {
  Scheme : string;
  Host : string;
  Path : string;
  RawQuery : string
}.

(** [getScheme]: a scheme is a letter followed by letters, digits, [+],
    [-] and [.], up to a colon. The result is the scheme and the rest,
    or [None] for the error "missing protocol scheme". *)
Fixpoint getSchemeFrom (first : bool) (acc rest raw : string)
  : option (string * string) :=
  match rest with
  | "" => Some ("", raw)
  | String c rest' =>
      if isAlpha c then getSchemeFrom false (acc +:+ String c "") rest' raw
      else if isDigit c || Ascii.eqb c "+" || Ascii.eqb c "-" || Ascii.eqb c "."
      then (if first then Some ("", raw)
            else getSchemeFrom false (acc +:+ String c "") rest' raw)
      else if Ascii.eqb c ":" then (if first then None else Some (acc, rest'))
      else Some ("", raw)
  end.

Definition getScheme (raw : string) : option (string * string) :=
  getSchemeFrom true "" raw raw.

(** [stringContainsCTLByte]. *)
Definition isCTL (c : ascii) : bool :=
  (N_of_ascii c <? 32)%N || (N_of_ascii c =? 127)%N.

Definition stringContainsCTLByte (s : string) : bool :=
  negb (forallb (fun c => negb (isCTL c)) s).

(** Every [%] is followed by two hexadecimal digits (the check that
    [unescape] makes before it decodes). *)
Fixpoint validEscapes (s : string) : bool :=
  match s with
  | "" => true
  | String c s' =>
      if Ascii.eqb c "%" then
        match s' with
        | String a (String b s'') => isHex a && isHex b && validEscapes s''
        | _ => false
        end
      else validEscapes s'
  end.

(** [validOptionalPort]: empty, or a colon followed by digits. *)
Definition validOptionalPort (port : string) : bool :=
  match port with
  | "" => true
  | String c digits => Ascii.eqb c ":" && forallb isDigit digits
  end.

(** The text from the last [sep] on, [sep] included, or [None]. *)
Fixpoint fromLast (sep : ascii) (s : string) : option string :=
  match s with
  | "" => None
  | String c s' =>
      match fromLast sep s' with
      | Some t => Some t
      | None => if Ascii.eqb c sep then Some s else None
      end
  end.

(** [parseAuthority] followed by [parseHost], for a host that is not a
    bracketed IP literal: the host is what follows the last [@]; its
    port, if any, must be numeric and its escapes well formed. *)
Definition parseAuthority (authority : string) : option string :=
  let host := afterLast "@" authority in
  let portOk :=
    match fromLast ":" host with
    | Some colonPort => validOptionalPort colonPort
    | None => true
    end in
  if portOk && validEscapes host then Some host else None.

(** [url.Parse], as far as [Scheme] and [Host] and the success of the
    parse go ([Path] and [RawQuery] are returned undecoded). [None] is a
    parse error. Bracketed IP literals and the character classes of
    user information and host names are not examined. *)
Definition Parse (rawURL : string) : option URL :=
  let '(u, frag, _) := Cut "#" rawURL in
  if stringContainsCTLByte u then None
  else if String.eqb u "*" then Some (mkURL "" "" "*" "")
  else
    match getScheme u with
    | None => None
    | Some (scheme0, rest0) =>
        let scheme := ToLower scheme0 in
        let '(rest, query) :=
          if HasSuffix rest0 "?" && (Count "?" rest0 =? 1)%nat
          then (fst (fst (Cut "?" rest0)), "")
          else let '(r, q, _) := Cut "?" rest0 in (r, q) in
        if negb (HasPrefix rest "/") && negb (String.eqb scheme "")
        then Some (mkURL scheme "" "" query)
        else if negb (HasPrefix rest "/")
                && ContainsByte ":" (fst (fst (Cut "/" rest)))
        then None
        else
          let withAuthority :=
            (negb (String.eqb scheme "") || negb (HasPrefix rest "///"))
            && HasPrefix rest "//" in
          let '(authority, pathpart) :=
            if withAuthority then
              let a := String.substring 2 (String.length rest - 2) rest in
              let '(h, p, found) := Cut "/" a in
              (h, if found then "/" +:+ p else "")
            else ("", rest) in
          match (if withAuthority then parseAuthority authority else Some "") with
          | None => None
          | Some host =>
              if validEscapes pathpart && validEscapes frag
              then Some (mkURL scheme host pathpart query)
              else None
          end
    end.

(** [shouldEscape(c, encodePath)]: letters, digits and
    [-_.~$&+,/:;=@] stay as they are. *)
Definition shouldEscapePath (c : ascii) : bool :=
  negb (isAlpha c || isDigit c
        || ContainsByte c "-_.~$&+,/:;=@").

(** [escape(s, encodePath)]. *)
Fixpoint escapePath (s : string) : string :=
  match s with
  | "" => ""
  | String c s' =>
      (if shouldEscapePath c then percentHex true c else String c "")
      +:+ escapePath s'
  end.

(** [URL.EscapedPath] for a URL without a [RawPath] hint. *)
Definition EscapedPath (u : URL) : string :=
  if String.eqb (Path u) "*" then "*" else escapePath (Path u).

(** [URL.String]: scheme, [//] and host when there are any, the
    escaped path and the query. A request in origin form has neither
    scheme nor host. User information, opaque parts and fragments do
    not occur in the URLs of this program; the host is not escaped. *)
Definition URL_String (u : URL) : string :=
  let scheme := if String.eqb (Scheme u) "" then "" else Scheme u +:+ ":" in
  let authority :=
    if (negb (String.eqb (Scheme u) "") || negb (String.eqb (Host u) ""))
       && (negb (String.eqb (Host u) "") || negb (String.eqb (Path u) ""))
    then "//" +:+ Host u else "" in
  let path := EscapedPath u in
  let slash :=
    if negb (String.eqb path "") && negb (HasPrefix path "/")
       && negb (String.eqb (Host u) "")
    then "/" else "" in
  let dotslash :=
    if String.eqb (scheme +:+ authority +:+ slash) ""
       && ContainsByte ":" (fst (fst (Cut "/" path)))
    then "./" else "" in
  scheme +:+ authority +:+ slash +:+ dotslash +:+ path
  +:+ (if String.eqb (RawQuery u) "" then "" else "?" +:+ RawQuery u).

End NetURL.

(** ** Package [logrus] *)

Module Logrus.

Inductive Level :=
| PanicLevel | FatalLevel | ErrorLevel | WarnLevel
| InfoLevel | DebugLevel | TraceLevel.

Definition rank (l : Level) : nat :=
  match l with
  | PanicLevel => 0 | FatalLevel => 1 | ErrorLevel => 2 | WarnLevel => 3
  | InfoLevel => 4 | DebugLevel => 5 | TraceLevel => 6
  end.

(** [IsLevelEnabled]: an entry is written when its level is at most the
    logger's. *)
Definition IsLevelEnabled (logger l : Level) : bool :=
  (rank l <=? rank logger)%nat.

End Logrus.

(** ** Package [net/http] *)

Module NetHTTP.
Import GoStrings.
Export Logrus.

Definition StatusOK : Z := 200.
Definition StatusMovedPermanently : Z := 301.
Definition StatusNotFound : Z := 404.
Definition StatusInternalServerError : Z := 500.

Definition StatusText (code : Z) : string :=
  if (code =? 200)%Z then "OK"
  else if (code =? 301)%Z then "Moved Permanently"
  else if (code =? 404)%Z then "Not Found"
  else if (code =? 500)%Z then "Internal Server Error"
  else "".

(** [http.Request], with the header fields the access log reads. *)
Record Request := mkRequest {
  Method : string;
  URL : NetURL.URL;
  Proto : string;
  RequestURI : string;
  RemoteAddr : string;
  Referer : string;
  UserAgent : string;
  Body : string
}.

(** [http.Header]. The keys the program uses are literals in canonical
    form, on which key canonicalisation is the identity. *)
Abbreviation Header := (gmap string (list string)).

(** The server's [response]: the header map handed out by [Header()],
    and what has gone to the client: the status and the snapshot of the
    header map taken by the first [WriteHeader], and the body bytes
    accepted by [Write]. The framing on the wire (the headers that the
    server adds, chunking, the body that a HEAD request does not get) is
    below this model. *)
Record response := mkResponse {
  handlerHeader : Header;
  wroteHeader : bool;
  status : Z;
  sentHeader : Header;
  written : string
}.

Definition newResponse : response := mkResponse ∅ false 0 ∅ "".

Definition setHandlerHeader (h : Header) (w : response) : response :=
  mkResponse h (wroteHeader w) (status w) (sentHeader w) (written w).

(** [WriteHeader]: the first call fixes the status and the headers that
    are sent; a later call is superfluous and changes nothing. The
    run-time check that rejects codes outside 100..999 is left out, and
    an informational status is treated like any other. *)
Definition response_WriteHeader (code : Z) (w : response) : response :=
  if wroteHeader w then w
  else mkResponse (handlerHeader w) true code (handlerHeader w) (written w).

Definition bodyAllowedForStatus (code : Z) : bool :=
  if ((100 <=? code) && (code <=? 199))%Z then false
  else if (code =? 204)%Z then false
  else if (code =? 304)%Z then false
  else true.

(** [Write]: sends the header with status 200 if none was sent, then
    appends the data when the status allows a body; the result is the
    number of bytes accepted. The bytes are not checked against a
    [Content-Length] that the handler may have declared. *)
Definition response_Write (data : string) (w : response) : response * nat :=
  let w1 := if wroteHeader w then w else response_WriteHeader StatusOK w in
  if bodyAllowedForStatus (status w1)
  then (mkResponse (handlerHeader w1) (wroteHeader w1) (status w1)
          (sentHeader w1) (written w1 +:+ data),
        String.length data)
  else (w1, 0).

(** What the server does when the handler has returned: a response on
    which nothing was written goes out with status 200. *)
Definition finishRequest (w : response) : response :=
  if wroteHeader w then w else response_WriteHeader StatusOK w.

(** One line of gorilla's combined log format: the values it is made
    of. The byte-level layout of the line is not modelled. *)
Record CombinedLine := mkCombinedLine {
  cl_remote : string;
  cl_time : Z;
  cl_method : string;
  cl_uri : string;
  cl_proto : string;
  cl_status : Z;
  cl_size : nat;
  cl_referer : string;
  cl_agent : string
}.

(** What the process writes to its standard output. *)
Inductive Line :=
| LogrusLine (lvl : Level) (msg : string)
| AccessLine (l : CombinedLine).

(** *** Handler bodies

    The body of a [ServeHTTP] sees its [http.ResponseWriter] only
    through the interface. It is modelled as a tree of the operations
    it performs: on the writer ([Header()] lookups and updates,
    [WriteHeader], [Write]), on the logger and standard output, and on
    the run time ([debug.Stack], [time.Now]); it ends by returning or
    by panicking. A panic value is carried as the text that the verb
    [%s] prints for it; a panic with the value nil, for which [recover()]
    returned nil before Go 1.21, is not among the values. *)
Inductive Prog : Type :=
| Return
| Panic (v : string)
| HeaderGet (key : string) (k : option (list string) -> Prog)
| HeaderSet (key value : string) (k : Prog)
| HeaderDel (key : string) (k : Prog)
| WriteHeader (code : Z) (k : Prog)
| Write (data : string) (k : nat -> Prog)
| Log (lvl : Level) (msg : string) (k : Prog)
| Stack (k : string -> Prog)
| Now (k : Z -> Prog)
| Print (ln : Line) (k : Prog).

(** [http.Handler]. *)
Definition Handler : Type := Request -> Prog.

(** Sequencing: [q] runs when [p] has returned. *)
Fixpoint andThen (p q : Prog) : Prog :=
  match p with
  | Return => q
  | Panic v => Panic v
  | HeaderGet key k => HeaderGet key (fun x => andThen (k x) q)
  | HeaderSet key v k => HeaderSet key v (andThen k q)
  | HeaderDel key k => HeaderDel key (andThen k q)
  | WriteHeader code k => WriteHeader code (andThen k q)
  | Write data k => Write data (fun n => andThen (k n) q)
  | Log lvl msg k => Log lvl msg (andThen k q)
  | Stack k => Stack (fun s => andThen (k s) q)
  | Now k => Now (fun t => andThen (k t) q)
  | Print ln k => Print ln (andThen k q)
  end.

(** [defer func() { if err := recover(); err != nil { h(err) } }()]
    around [p]: a panic of [p] is stopped and [h] runs on its value; when
    [p] returns, [recover()] is nil and nothing happens. *)
Fixpoint deferRecover (p : Prog) (h : string -> Prog) : Prog :=
  match p with
  | Return => Return
  | Panic v => h v
  | HeaderGet key k => HeaderGet key (fun x => deferRecover (k x) h)
  | HeaderSet key v k => HeaderSet key v (deferRecover k h)
  | HeaderDel key k => HeaderDel key (deferRecover k h)
  | WriteHeader code k => WriteHeader code (deferRecover k h)
  | Write data k => Write data (fun n => deferRecover (k n) h)
  | Log lvl msg k => Log lvl msg (deferRecover k h)
  | Stack k => Stack (fun s => deferRecover (k s) h)
  | Now k => Now (fun t => deferRecover (k t) h)
  | Print ln k => Print ln (deferRecover k h)
  end.

(** *** Running a handler body *)

Inductive Outcome :=
| Returned
| Panicked (v : string).

(** What a handler body acts on: the response and standard output. *)
Record World := mkWorld {
  resp : response;
  stdout : list Line
}.

(** What it reads from its surroundings: the clock, the stack trace
    that [debug.Stack] would print, and the level of the logger. *)
Record Env := mkEnv {
  now : Z;
  stack : string;
  level : Level
}.

(** An entry of the logger: written when its level is enabled. *)
Definition logrus_write (logger lvl : Level) (msg : string)
    (out : list Line) : list Line :=
  if IsLevelEnabled logger lvl then out ++ [LogrusLine lvl msg] else out.

Fixpoint run (env : Env) (p : Prog) (w : World) : Outcome * World :=
  match p with
  | Return => (Returned, w)
  | Panic v => (Panicked v, w)
  | HeaderGet key k => run env (k (handlerHeader (resp w) !! key)) w
  | HeaderSet key v k =>
      run env k
        (mkWorld (setHandlerHeader (<[key := [v]]> (handlerHeader (resp w))) (resp w))
           (stdout w))
  | HeaderDel key k =>
      run env k
        (mkWorld (setHandlerHeader (delete key (handlerHeader (resp w))) (resp w))
           (stdout w))
  | WriteHeader code k =>
      run env k (mkWorld (response_WriteHeader code (resp w)) (stdout w))
  | Write data k =>
      let '(r, n) := response_Write data (resp w) in
      run env (k n) (mkWorld r (stdout w))
  | Log lvl msg k =>
      run env k (mkWorld (resp w) (logrus_write (level env) lvl msg (stdout w)))
  | Stack k => run env (k (stack env)) w
  | Now k => run env (k (now env)) w
  | Print ln k => run env k (mkWorld (resp w) (stdout w ++ [ln]))
  end.

(** *** [http.Redirect] and [http.Error] *)

(** Bytes from 0x80 on become [%xy] in lower-case hexadecimal. *)
Fixpoint hexEscapeNonASCII (s : string) : string :=
  match s with
  | "" => ""
  | String c s' =>
      (if (128 <=? N_of_ascii c)%N then percentHex false c else String c "")
      +:+ hexEscapeNonASCII s'
  end.

Fixpoint htmlEscape (s : string) : string :=
  match s with
  | "" => ""
  | String c s' =>
      (if Ascii.eqb c "&" then "&amp;"
       else if Ascii.eqb c "<" then "&lt;"
       else if Ascii.eqb c ">" then "&gt;"
       else if Ascii.eqb c (ascii_of_nat 34) then "&#34;"
       else if Ascii.eqb c "'" then "&#39;"
       else String c "")
      +:+ htmlEscape s'
  end.

(** Does [url.Parse] accept [url] and find neither scheme nor host? *)
Definition isRelative (url : string) : bool :=
  match NetURL.Parse url with
  | Some u => String.eqb (NetURL.Scheme u) "" && String.eqb (NetURL.Host u) ""
  | None => false
  end.

(** The first half of [http.Redirect]: a target without scheme and host
    is made absolute against the request path and cleaned, keeping a
    trailing slash and the query. *)
Definition redirectTarget (r : Request) (url : string) : string :=
  if isRelative url then
    let oldpath :=
      if String.eqb (NetURL.Path (URL r)) "" then "/" else NetURL.Path (URL r) in
    let url1 :=
      if String.eqb url "" || negb (HasPrefix url "/")
      then fst (GoPath.Split oldpath) +:+ url
      else url in
    let '(url2, q, found) := Cut "?" url1 in
    let query := if found then "?" +:+ q else "" in
    let trailing := HasSuffix url2 "/" in
    let url3 := GoPath.Clean url2 in
    let url4 :=
      if trailing && negb (HasSuffix url3 "/") then url3 +:+ "/" else url3 in
    url4 +:+ query
  else url.

(** [http.Redirect(w, r, url, code)]. *)
Definition Redirect (r : Request) (url : string) (code : Z) : Prog :=
  let url' := redirectTarget r url in
  HeaderGet "Content-Type" (fun ct =>
    let hadCT := match ct with Some _ => true | None => false end in
    HeaderSet "Location" (hexEscapeNonASCII url')
      (andThen
         (if negb hadCT && (String.eqb (Method r) "GET" || String.eqb (Method r) "HEAD")
          then HeaderSet "Content-Type" "text/html; charset=utf-8" Return
          else Return)
         (WriteHeader code
            (if negb hadCT && String.eqb (Method r) "GET"
             then Write ("<a href=" +:+ dquote +:+ htmlEscape url' +:+ dquote +:+ ">"
                         +:+ StatusText code +:+ "</a>." +:+ newline +:+ newline)
                    (fun _ => Return)
             else Return)))).

(** [http.Error(w, error, code)]. *)
Definition Error (error : string) (code : Z) : Prog :=
  HeaderSet "Content-Type" "text/plain; charset=utf-8"
    (HeaderSet "X-Content-Type-Options" "nosniff"
       (WriteHeader code
          (Write (error +:+ newline) (fun _ => Return)))).

(** [http.NotFound]. *)
Definition NotFound : Handler :=
  fun _ => Error "404 page not found" StatusNotFound.

(** *** Serving *)

(** What a client gets for one request: a complete response, or, when
    the panic of a handler reaches the server, whatever had been sent
    before the connection was dropped. *)
Inductive Reply :=
| Complete (r : response)
| Aborted (partial : response).

(** One request against a fresh response. *)
Definition serveRequest (h : Handler) (env : Env) (r : Request)
    (out : list Line) : Reply * list Line :=
  match run env (h r) (mkWorld newResponse out) with
  | (Returned, w) => (Complete (finishRequest (resp w)), stdout w)
  | (Panicked _, w) => (Aborted (resp w), stdout w)
  end.

(** The requests of a server, one after the other; each comes with the
    surroundings it is served in. *)
Fixpoint Serve (h : Handler) (reqs : list (Env * Request))
    (out : list Line) : list Reply * list Line :=
  match reqs with
  | [] => ([], out)
  | (env, r) :: rest =>
      let '(reply, out1) := serveRequest h env r out in
      let '(replies, out2) := Serve h rest out1 in
      (reply :: replies, out2)
  end.

End NetHTTP.

(** ** Package [gorilla/handlers] *)

Module Handlers.
Import GoStrings NetHTTP.

(** [responseLogger]: the wrapper around the response writer that
    remembers the last status passed to [WriteHeader] and counts the
    bytes that [Write] reports. *)
Record responseLogger := mkResponseLogger {
  rl_status : Z;
  rl_size : nat
}.

(** [makeLogger]: the status starts as 200. *)
Definition makeLogger : responseLogger := mkResponseLogger StatusOK 0.

(** The wrapped handler body [p] runs against the wrapper: every
    operation goes through to the writer below, [WriteHeader] and
    [Write] are noted on the way; [k] goes on with the wrapper when [p]
    has returned. A panic of [p] passes through. *)
Fixpoint withLogger (l : responseLogger) (p : Prog)
    (k : responseLogger -> Prog) : Prog :=
  match p with
  | Return => k l
  | Panic v => Panic v
  | HeaderGet key c => HeaderGet key (fun x => withLogger l (c x) k)
  | HeaderSet key v c => HeaderSet key v (withLogger l c k)
  | HeaderDel key c => HeaderDel key (withLogger l c k)
  | WriteHeader code c =>
      WriteHeader code (withLogger (mkResponseLogger code (rl_size l)) c k)
  | Write data c =>
      Write data (fun n =>
        withLogger (mkResponseLogger (rl_status l) (rl_size l + n)) (c n) k)
  | Log lvl msg c => Log lvl msg (withLogger l c k)
  | Stack c => Stack (fun s => withLogger l (c s) k)
  | Now c => Now (fun t => withLogger l (c t) k)
  | Print ln c => Print ln (withLogger l c k)
  end.

(** What the wrapper has noted when [p] has run from [w]. *)
Fixpoint observed (env : Env) (l : responseLogger) (p : Prog) (w : World)
  : responseLogger :=
  match p with
  | Return => l
  | Panic _ => l
  | HeaderGet key c => observed env l (c (handlerHeader (resp w) !! key)) w
  | HeaderSet key v c =>
      observed env l c
        (mkWorld (setHandlerHeader (<[key := [v]]> (handlerHeader (resp w))) (resp w))
           (stdout w))
  | HeaderDel key c =>
      observed env l c
        (mkWorld (setHandlerHeader (delete key (handlerHeader (resp w))) (resp w))
           (stdout w))
  | WriteHeader code c =>
      observed env (mkResponseLogger code (rl_size l)) c
        (mkWorld (response_WriteHeader code (resp w)) (stdout w))
  | Write data c =>
      let '(r, n) := response_Write data (resp w) in
      observed env (mkResponseLogger (rl_status l) (rl_size l + n)) (c n)
        (mkWorld r (stdout w))
  | Log lvl msg c =>
      observed env l c (mkWorld (resp w) (logrus_write (level env) lvl msg (stdout w)))
  | Stack c => observed env l (c (stack env)) w
  | Now c => observed env l (c (now env)) w
  | Print ln c => observed env l c (mkWorld (resp w) (stdout w ++ [ln]))
  end.

(** The request target that the line shows (the case of CONNECT over
    HTTP/2, which shows the host, is left out). *)
Definition logURI (r : Request) : string :=
  if String.eqb (RequestURI r) ""
  then (let path := NetURL.EscapedPath (URL r) in
        (if String.eqb path "" then "/" else path)
        +:+ (if String.eqb (NetURL.RawQuery (URL r)) "" then ""
             else "?" +:+ NetURL.RawQuery (URL r)))
  else RequestURI r.

(** The line that [writeCombinedLog] prints for a request that started
    at [t] and on which the wrapper saw [l]. *)
Definition combinedLine (r : Request) (t : Z) (l : responseLogger)
  : CombinedLine :=
  mkCombinedLine (RemoteAddr r) t (Method r) (logURI r) (Proto r)
    (rl_status l) (rl_size l) (Referer r) (UserAgent r).

(** [handlers.CombinedLoggingHandler(os.Stdout, next)]: take the time,
    run [next] against the wrapper, then print the line. *)
Definition CombinedLoggingHandler (next : Handler) : Handler :=
  fun r =>
    Now (fun t =>
      withLogger makeLogger (next r) (fun l =>
        Print (AccessLine (combinedLine r t l)) Return)).

End Handlers.

(** ** Package [gorilla/mux] *)

Module Mux.
Import GoStrings NetHTTP.

(** A route made by [PathPrefix(tpl).HandlerFunc(h)], for a template
    without variables. *)
Record Route := mkRoute {
  pathPrefix : string;
  routeHandler : Handler
}.

Record Router := mkRouter {
  middlewares : list (Handler -> Handler);
  routeList : list Route
}.

Definition NewRouter : Router := mkRouter [] [].

(** [r.Use(mw)] appends to the middlewares. *)
Definition Use (mw : Handler -> Handler) (r : Router) : Router :=
  mkRouter (middlewares r ++ [mw]) (routeList r).

(** [r.PathPrefix(tpl).HandlerFunc(h)] appends a route. *)
Definition PathPrefixHandlerFunc (tpl : string) (h : Handler) (r : Router)
  : Router :=
  mkRouter (middlewares r) (routeList r ++ [mkRoute tpl h]).

(** [cleanPath]: the canonical form of a request path. *)
Definition cleanPath (p : string) : string :=
  if String.eqb p "" then "/"
  else
    let p1 := if HasPrefix p "/" then p else "/" +:+ p in
    let np := GoPath.Clean p1 in
    if HasSuffix p1 "/" && negb (String.eqb np "/") then np +:+ "/" else np.

(** [Router.Match]: the first route whose prefix the path has, wrapped
    in the middlewares so that the first one registered is outermost. *)
Definition Match (rt : Router) (r : Request) : option Handler :=
  match List.find (fun route => HasPrefix (NetURL.Path (URL r)) (pathPrefix route))
          (routeList rt) with
  | Some route => Some (fold_right (fun mw h => mw h) (routeHandler route) (middlewares rt))
  | None => None
  end.

(** [Router.ServeHTTP]: a request whose path is not in canonical form is
    answered by the router itself with a redirect to the canonical
    path; otherwise the matching route serves it; without a match the
    answer is 404. *)
Definition ServeHTTP (rt : Router) : Handler :=
  fun r =>
    let path := NetURL.Path (URL r) in
    let p := cleanPath path in
    if negb (String.eqb p path) then
      let url := NetURL.mkURL (NetURL.Scheme (URL r)) (NetURL.Host (URL r)) p
                   (NetURL.RawQuery (URL r)) in
      HeaderSet "Location" (NetURL.URL_String url)
        (WriteHeader StatusMovedPermanently Return)
    else
      match Match rt r with
      | Some handler => handler r
      | None => NotFound r
      end.

End Mux.

(** ** [main.go] *)

Import GoStrings NetHTTP.

(** The flags of [main]: the two package variables [redirect] and
    [debugOutput] and the two locals [host] and [wait] (in nanoseconds).
    They are set once by [flag.Parse] and only read afterwards. The
    receiver of the methods, an [application] without fields, is left
    out. *)
Record Config := mkConfig {
  host : string;
  redirect : string;
  debugOutput : bool;
  wait : Z
}.

Definition defaultGracefulTimeout : Z := 5 * 1000000000.

(** The values of the flags when none is given. *)
Definition defaultConfig : Config :=
  mkConfig "0.0.0.0:8080" "https://google.com" false defaultGracefulTimeout.

(** The level that [main] gives the logger. *)
Definition logLevel (cfg : Config) : Level :=
  if debugOutput cfg then DebugLevel else InfoLevel.

Definition catchAllHandler (cfg : Config) : Handler :=
  fun r => Redirect r (redirect cfg) StatusMovedPermanently.

Definition loggingMiddleware (next : Handler) : Handler :=
  Handlers.CombinedLoggingHandler next.

Definition logError (err : string) (withTrace : bool) : Prog :=
  HeaderSet "Connection" "close"
    (let errorText := err in
     Log ErrorLevel errorText
       (andThen
          (if withTrace then Stack (fun trace => Log ErrorLevel trace Return)
           else Return)
          (Error "There was an error processing your request"
             StatusInternalServerError))).

Definition recoverPanic (next : Handler) : Handler :=
  fun r => deferRecover (next r) (fun err => logError err true).

(** The router of [routes] around a final handler [final]. *)
Definition routesFor (final : Handler) : Handler :=
  let r := Mux.NewRouter in
  let r := Mux.Use loggingMiddleware r in
  let r := Mux.Use recoverPanic r in
  let r := Mux.PathPrefixHandlerFunc "/" final r in
  Mux.ServeHTTP r.

Definition routes (cfg : Config) : Handler :=
  routesFor (catchAllHandler cfg).

(** ** The process: [main] and the serving goroutine *)

Module Lifecycle.

Inductive Signal := SIGINT | SIGTERM.

(** The errors that [ListenAndServe] and [Shutdown] return. The result
    of [ListenAndServe] is never nil; that of [Shutdown] is nil, the
    error of the expired context, or an error from closing the
    listener. *)
Inductive error :=
| ErrServerClosed
| DeadlineExceeded
| OtherError (msg : string).

Definition errorText (e : error) : string :=
  match e with
  | ErrServerClosed => "http: Server closed"
  | DeadlineExceeded => "context deadline exceeded"
  | OtherError msg => msg
  end.

(** Where [main] is: blocked on [<-c], inside [srv.Shutdown(ctx)], or
    gone with an exit code. *)
Inductive MainPC :=
| AwaitSignal
| InShutdown
| Exited (code : Z).

(** Where the goroutine is: inside [srv.ListenAndServe()], holding its
    result before the test [err != nil], or finished. *)
Inductive ServePC :=
| InListenAndServe
| ServeReturned (err : error)
| ServeFinished.

(** The process: both threads, the channel [c] of capacity one, and
    standard output. *)
Record Process := mkProcess {
  mainpc : MainPC;
  servepc : ServePC;
  sigchan : option Signal;
  out : list Line
}.

(** What can happen next. [Deliver] is the operating system handing a
    signal to the process; the other events are steps of one of the two
    threads. [ShutdownReturns None] is a shutdown that completed before
    the context of duration [wait] expired, [ShutdownReturns (Some
    DeadlineExceeded)] one on which the context expired first. *)
Inductive Event :=
| Deliver (s : Signal)
| Receive
| ServeReturns (err : error)
| ServeLogs
| ShutdownReturns (err : option error).

(** [main] up to the receive on [c]: the logger is set up, the start is
    logged, the goroutine is started and both signals are routed to
    [c]. *)
Definition start (cfg : Config) : Process :=
  mkProcess AwaitSignal InListenAndServe None
    (let out1 := logrus_write (logLevel cfg) InfoLevel
                   ("Starting server on " +:+ host cfg) [] in
     if debugOutput cfg
     then logrus_write (logLevel cfg) DebugLevel "DEBUG mode enabled" out1
     else out1).

(** The goroutine once [srv.ListenAndServe()] has returned [err]:
    [if err != nil { log.Error(err) }]. *)
Definition serveLog (cfg : Config) (err : option error) (out : list Line)
  : list Line :=
  match err with
  | Some e => logrus_write (logLevel cfg) ErrorLevel (errorText e) out
  | None => out
  end.

(** [main] once [srv.Shutdown(ctx)] has returned [err]:
    [if err != nil { log.Fatal(err) }], which writes the entry and exits
    with code 1; otherwise [log.Info("shutting down")] and
    [os.Exit(0)]. *)
Definition exitCode (err : option error) : Z :=
  match err with
  | Some _ => 1
  | None => 0
  end.

Definition exitLog (cfg : Config) (err : option error) (out : list Line)
  : list Line :=
  match err with
  | Some e => logrus_write (logLevel cfg) FatalLevel (errorText e) out
  | None => logrus_write (logLevel cfg) InfoLevel "shutting down" out
  end.

(** One event; [None] when it cannot happen in this state. After the
    exit nothing happens any more.
    - [Deliver]: [signal.Notify] has replaced the default action of
      both signals; the signal goes to [c] if there is room and is
      dropped otherwise.
    - [Receive]: [<-c] takes the signal and [main] enters [Shutdown].
    - [ServeReturns]: [ListenAndServe] returns; its error is never nil.
    - [ServeLogs]: the goroutine tests and logs the error and ends.
    - [ShutdownReturns]: [main] logs and exits. *)
Definition step (cfg : Config) (e : Event) (p : Process) : option Process :=
  match mainpc p with
  | Exited _ => None
  | pc =>
      match e with
      | Deliver s =>
          Some (mkProcess pc (servepc p)
                  (match sigchan p with Some s0 => Some s0 | None => Some s end)
                  (out p))
      | Receive =>
          match pc, sigchan p with
          | AwaitSignal, Some _ => Some (mkProcess InShutdown (servepc p) None (out p))
          | _, _ => None
          end
      | ServeReturns err =>
          match servepc p with
          | InListenAndServe =>
              Some (mkProcess pc (ServeReturned err) (sigchan p) (out p))
          | _ => None
          end
      | ServeLogs =>
          match servepc p with
          | ServeReturned err =>
              Some (mkProcess pc ServeFinished (sigchan p)
                      (serveLog cfg (Some err) (out p)))
          | _ => None
          end
      | ShutdownReturns r =>
          match pc with
          | InShutdown =>
              Some (mkProcess (Exited (exitCode r)) (servepc p) (sigchan p)
                      (exitLog cfg r (out p)))
          | _ => None
          end
      end
  end.

(** A sequence of events from a state. *)
Fixpoint exec (cfg : Config) (evs : list Event) (p : Process) : option Process :=
  match evs with
  | [] => Some p
  | e :: rest =>
      match step cfg e p with
      | Some p' => exec cfg rest p'
      | None => None
      end
  end.

(** [main]: the states that the process can be in. *)
Definition main (cfg : Config) (evs : list Event) : option Process :=
  exec cfg evs (start cfg).

Definition isReceive (e : Event) : bool :=
  match e with Receive => true | _ => false end.

Definition isErrorLine (l : Line) : bool :=
  match l with
  | LogrusLine ErrorLevel _ => true
  | _ => false
  end.

End Lifecycle.

(** ** Predicates of the statements *)

Import Lifecycle.

(** The client got a complete response. *)
Definition isComplete (reply : Reply) : Prop := exists r, reply = Complete r.

(** On a response on which no header was written, no body was written
    either; running a handler body keeps it so. *)
Definition bodyless (w : response) : Prop :=
  wroteHeader w = false -> written w = "".


(** Two requests that differ at most in path, query and body. *)
Definition sameButPathQueryBody (r1 r2 : Request) : Prop :=
  Method r1 = Method r2 /\ Proto r1 = Proto r2 /\ RemoteAddr r1 = RemoteAddr r2
  /\ Referer r1 = Referer r2 /\ UserAgent r1 = UserAgent r2.

(** The shutdown path: a signal is delivered, [main] receives it, and
    [Shutdown] returns [r] as the last event. *)
Definition shutdownPath (evs : list Event) (r : option error) : Prop :=
  exists s e1 e2 e3,
    evs = (e1 ++ Deliver s :: e2 ++ Receive :: e3 ++ [ShutdownReturns r])%list.

(** How often [main] has received from the channel. *)
Definition receives (evs : list Event) : nat :=
  length (List.filter isReceive evs).

(** ** Sample inputs *)

(** The flags with [-redirect=https://example.com]. *)
Definition exampleConfig : Config :=
  mkConfig "0.0.0.0:8080" "https://example.com" false defaultGracefulTimeout.

(** The flags with [-redirect=login]. *)
Definition relativeConfig : Config :=
  mkConfig "0.0.0.0:8080" "login" false defaultGracefulTimeout.

(** The request [GET /anything?x=1]. *)
Definition sampleRequest : Request :=
  mkRequest "GET" (NetURL.mkURL "" "" "/anything" "x=1") "HTTP/1.1"
    "/anything?x=1" "192.0.2.7:51234" "" "curl/8.5.0" "".

(** [GET /other/place?y=2] with a body, from the same client. *)
Definition otherRequest : Request :=
  mkRequest "GET" (NetURL.mkURL "" "" "/other/place" "y=2") "HTTP/1.1"
    "/other/place?y=2" "192.0.2.7:51234" "" "curl/8.5.0" "payload".

(** [GET //anything?x=1]: the path has a doubled slash. *)
Definition doubledSlashRequest : Request :=
  mkRequest "GET" (NetURL.mkURL "" "" "//anything" "x=1") "HTTP/1.1"
    "//anything?x=1" "192.0.2.7:51234" "" "curl/8.5.0" "".

(** The surroundings in which the sample requests are served. *)
Definition sampleEnv : Env := mkEnv 1700000000 "goroutine 7 [running]:" InfoLevel.

(** A handler that panics at once. *)
Definition panicsAtOnce : Handler := fun _ => Panic "boom".

(** A handler that sends its header with status 200 and then panics. *)
Definition panicsAfterHeader : Handler :=
  fun _ => WriteHeader StatusOK (Panic "boom").

(** The flags with a target that ends in the two bytes of a UTF-8
    encoded [e] with acute accent. *)
Definition accentConfig : Config :=
  mkConfig "0.0.0.0:8080"
    ("https://example.com/caf"
     +:+ String (ascii_of_nat 195) (String (ascii_of_nat 169) ""))
    false defaultGracefulTimeout.

(** The start of a shutdown: a signal is delivered and received. *)
Definition signalled : list Event := [Deliver SIGTERM; Receive].

(** The error of [ListenAndServe] when the port is already bound. *)
Definition bindFailure : error :=
  OtherError "listen tcp 0.0.0.0:8080: bind: address already in use".

(** ** The command line *)

Module Flag.
Import GoStrings.

(** [strconv.ParseBool]. *)
Definition ParseBool (s : string) : option bool :=
  if existsb (String.eqb s) ["1"; "t"; "T"; "TRUE"; "true"; "True"] then Some true
  else if existsb (String.eqb s) ["0"; "f"; "F"; "FALSE"; "false"; "False"]
  then Some false
  else None.

(** Why the parse of the flags failed. *)
Inductive ParseError :=
| BadFlagSyntax (arg : string)
| NotDefined (name : string)
| InvalidBoolean (value name : string)
| NeedsArgument (name : string)
| InvalidValue (value name : string).

(** What [flag.Parse] comes to: the flags and the arguments left over; a
    request for help; or an error. In the last two cases the process
    exits in [flag.Parse] and nothing of the server is started. *)
Inductive Outcome :=
| Parsed (cfg : Config) (rest : list string)
| Help
| Failed (err : ParseError).

(** What [parseOne] makes of one argument: no flag, the terminator
    [--], a malformed flag, or a flag name with the value after the
    first [=] that is not the first byte of the name. *)
Inductive Shape :=
| NotFlag
| Terminator
| Malformed
| Named (name : string) (value : option string).

Definition splitName (name : string) : string * option string :=
  match name with
  | "" => ("", None)
  | String c tl =>
      let '(b, a, found) := Cut "=" tl in
      (String c b, if found then Some a else None)
  end.

Definition shape (s : string) : Shape :=
  match s with
  | String c0 (String c1 tl) =>
      if negb (Ascii.eqb c0 "-") then NotFlag
      else
        let name := if Ascii.eqb c1 "-" then tl else String c1 tl in
        if Ascii.eqb c1 "-" && String.eqb tl "" then Terminator
        else
          match name with
          | "" => Malformed
          | String n0 _ =>
              if Ascii.eqb n0 "-" || Ascii.eqb n0 "=" then Malformed
              else let '(n, v) := splitName name in Named n v
          end
  | _ => NotFlag
  end.

Definition setHost (v : string) (cfg : Config) : Config :=
  mkConfig v (redirect cfg) (debugOutput cfg) (wait cfg).
Definition setRedirect (v : string) (cfg : Config) : Config :=
  mkConfig (host cfg) v (debugOutput cfg) (wait cfg).
Definition setDebug (b : bool) (cfg : Config) : Config :=
  mkConfig (host cfg) (redirect cfg) b (wait cfg).
Definition setWait (d : Z) (cfg : Config) : Config :=
  mkConfig (host cfg) (redirect cfg) (debugOutput cfg) d.

Section Parse.

(** [time.ParseDuration], in nanoseconds; [None] is its error. *)
Variable ParseDuration : string -> option Z.

(** [Set] of the flag [name], which is not [debug], to [v]. *)
Definition setValued (name v : string) (cfg : Config) : option Config :=
  if String.eqb name "host" then Some (setHost v cfg)
  else if String.eqb name "redirect" then Some (setRedirect v cfg)
  else match ParseDuration v with
       | Some d => Some (setWait d cfg)
       | None => None
       end.

Definition isValued (name : string) : bool :=
  String.eqb name "host" || String.eqb name "redirect"
  || String.eqb name "graceful-timeout".

(** The loop of [FlagSet.Parse] over [parseOne], for the four flags
    that [main] declares: [-debug] is a boolean flag and never takes the
    next argument as its value; the other three take it when they come
    without [=]. *)
Fixpoint parse (cfg : Config) (args : list string) : Outcome :=
  match args with
  | [] => Parsed cfg []
  | s :: rest =>
      match shape s with
      | NotFlag => Parsed cfg (s :: rest)
      | Terminator => Parsed cfg rest
      | Malformed => Failed (BadFlagSyntax s)
      | Named name value =>
          if String.eqb name "debug" then
            match value with
            | Some v =>
                match ParseBool v with
                | Some b => parse (setDebug b cfg) rest
                | None => Failed (InvalidBoolean v name)
                end
            | None => parse (setDebug true cfg) rest
            end
          else if isValued name then
            match value with
            | Some v =>
                match setValued name v cfg with
                | Some cfg' => parse cfg' rest
                | None => Failed (InvalidValue v name)
                end
            | None =>
                match rest with
                | v :: rest' =>
                    match setValued name v cfg with
                    | Some cfg' => parse cfg' rest'
                    | None => Failed (InvalidValue v name)
                    end
                | [] => Failed (NeedsArgument name)
                end
            end
          else if String.eqb name "help" || String.eqb name "h" then Help
          else Failed (NotDefined name)
      end
  end.

(** [flag.Parse()] in [main]: the flags start from their defaults. *)
Definition Parse (args : list string) : Outcome := parse defaultConfig args.

End Parse.

End Flag.

(** ** Further predicates and inputs *)





(** The text that [logError] sends to the client. *)
Definition errorBody : string :=
  "There was an error processing your request" +:+ newline.



(** The configuration with the debug flag set to [b]. *)
Definition withDebug (b : bool) (cfg : Config) : Config :=
  mkConfig (host cfg) (redirect cfg) b (wait cfg).

(** Two events that are the same but for which of the two signals is
    delivered. *)
Definition sameButSignal (e e' : Event) : Prop :=
  e = e' \/ exists s s', e = Deliver s /\ e' = Deliver s'.

(** The lines of level error on standard output. *)
Definition errorLines (lines : list Line) : nat :=
  length (List.filter isErrorLine lines).

(** Two processes that differ only by the debug line behind the first
    line of their output. *)
Definition differByDebugLine (first : Line) (p q : Process) : Prop :=
  mainpc p = mainpc q /\ servepc p = servepc q /\ sigchan p = sigchan q
  /\ exists tail,
       out p = first :: tail
       /\ out q = first :: LogrusLine DebugLevel "DEBUG mode enabled" :: tail.

(** Two processes in the same state but for which signal is in the
    channel. *)
Definition sameButChannel (p q : Process) : Prop :=
  mainpc p = mainpc q /\ servepc p = servepc q /\ out p = out q
  /\ (sigchan p = None <-> sigchan q = None).

(** The headers that [http.Error] sets or, in later versions of the
    library, removes, and the one that [logError] sets. *)
Definition bodyHeader (key : string) : bool :=
  existsb (String.eqb key)
    ["Connection"; "Content-Type"; "X-Content-Type-Options"; "Content-Length";
     "Content-Encoding"; "Etag"; "Last-Modified"; "Cache-Control"].

(** A handler that sets a header and then panics. *)
Definition panicsAfterSetHeader : Handler :=
  fun _ => HeaderSet "Set-Cookie" "session=1" (Panic "boom").

(** The duration parser of the examples: whole seconds, written [Ns]
    with one digit [N]. *)
Definition sampleParseDuration (s : string) : option Z :=
  match s with
  | String d (String "s" "") =>
      if isDigit d then Some ((Z.of_N (N_of_ascii d) - 48) * 1000000000)%Z else None
  | _ => None
  end.

(** * Properties *)

(** ** The library models on the libraries' own examples *)

Example Clean_examples :
  List.map GoPath.Clean
    ["abc//def//ghi"; "abc/./def"; "/./abc/def"; "abc/.."; "abc/def/ghi/../jkl";
     "abc/def/../../.."; "/abc/def/../../.."; "abc/../../././../def"; ""; "/";
     "abc/"; "//abc//"; "/../abc"]
  = ["abc/def/ghi"; "abc/def"; "/abc/def"; "."; "abc/def/jkl";
     ".."; "/"; "../../def"; "."; "/";
     "abc"; "/abc"; "/abc"].
Proof. vm_compute. reflexivity. Qed.

Example Split_examples :
  List.map GoPath.Split ["static/myfile.css"; "myfile.css"; ""; "/a/b/"]
  = [("static/", "myfile.css"); ("", "myfile.css"); ("", ""); ("/a/b/", "")].
Proof. vm_compute. reflexivity. Qed.

Example cleanPath_examples :
  List.map Mux.cleanPath [""; "/"; "//"; "/a/"; "/a//"; "a"; "/a/./b"; "/a/../../b/"; "/a/b"]
  = ["/"; "/"; "/"; "/a/"; "/a/"; "/a"; "/a/b"; "/b/"; "/a/b"].
Proof. vm_compute. reflexivity. Qed.

Example Parse_examples :
  List.map (fun raw => (fun u => (NetURL.Scheme u, NetURL.Host u)) <$> NetURL.Parse raw)
    ["https://google.com"; "HTTP://user@example.com:8080/a?b#c"; "login"; "/login?next=1";
     "//example.com/x"; "mailto:someone@example.com"; ":missing"; "1a:b/c"; "/a%zz";
     "http://example.com:port/"]
  = [Some ("https", "google.com"); Some ("http", "example.com:8080"); Some ("", "");
     Some ("", ""); Some ("", "example.com"); Some ("mailto", ""); None; None; None;
     None].
Proof. vm_compute. reflexivity. Qed.

Example redirectTarget_examples :
  List.map (redirectTarget otherRequest)
    ["https://google.com"; "//example.com/x"; "/login"; "/a//b/"; "login"; "";
     "../up?x=1"; "sub/"]
  = ["https://google.com"; "//example.com/x"; "/login"; "/a/b/"; "/other/login";
     "/other/"; "/up?x=1"; "/other/sub/"].
Proof. vm_compute. reflexivity. Qed.

Example URL_String_examples :
  List.map NetURL.URL_String
    [NetURL.mkURL "" "" "/a b/c" "x=1"; NetURL.mkURL "http" "example.com" "/p" "";
     NetURL.mkURL "" "" "/" ""]
  = ["/a%20b/c?x=1"; "http://example.com/p"; "/"].
Proof. vm_compute. reflexivity. Qed.

(** The spec's example: with [-redirect=https://example.com], the request
    [GET /anything?x=1] gets 301, the target as [Location], the short
    HTML body, and one access log line. *)
Example spec_example :
  exists rsp,
    serveRequest (routes exampleConfig) sampleEnv sampleRequest []
    = (Complete rsp,
       [AccessLine
          (mkCombinedLine "192.0.2.7:51234" 1700000000 "GET" "/anything?x=1" "HTTP/1.1"
             301 54 "" "curl/8.5.0")])
    /\ status rsp = 301%Z
    /\ sentHeader rsp !! "Location" = Some ["https://example.com"]
    /\ sentHeader rsp !! "Content-Type" = Some ["text/html; charset=utf-8"]
    /\ written rsp
       = "<a href=" +:+ dquote +:+ "https://example.com" +:+ dquote
         +:+ ">Moved Permanently</a>." +:+ newline +:+ newline.
Proof.
  eexists. split; [vm_compute; reflexivity|].
  repeat split; vm_compute; reflexivity.
Qed.

(** ** Running composed handler bodies *)

Section RunLemmas.
Variable env : Env.

Lemma run_andThen (p q : Prog) (w : World) :
  run env (andThen p q) w =
  match run env p w with
  | (Returned, w') => run env q w'
  | (Panicked v, w') => (Panicked v, w')
  end.
Proof.
  revert w; induction p as [| | ? ? IH | ? ? ? IH | ? ? IH | ? ? IH | ? ? IH
                            | ? ? ? IH | ? IH | ? IH | ? ? IH]; intros w;
    cbn [andThen run]; auto.
  destruct (response_Write data (resp w)); apply IH.
Qed.

Lemma run_deferRecover (p : Prog) (h : string -> Prog) (w : World) :
  run env (deferRecover p h) w =
  match run env p w with
  | (Returned, w') => (Returned, w')
  | (Panicked v, w') => run env (h v) w'
  end.
Proof.
  revert w; induction p as [| | ? ? IH | ? ? ? IH | ? ? IH | ? ? IH | ? ? IH
                            | ? ? ? IH | ? IH | ? IH | ? ? IH]; intros w;
    cbn [deferRecover run]; auto.
  destruct (response_Write data (resp w)); apply IH.
Qed.

Lemma run_withLogger (l : Handlers.responseLogger) (p : Prog)
    (k : Handlers.responseLogger -> Prog) (w : World) :
  run env (Handlers.withLogger l p k) w =
  match run env p w with
  | (Returned, w') => run env (k (Handlers.observed env l p w)) w'
  | (Panicked v, w') => (Panicked v, w')
  end.
Proof.
  revert l w; induction p as [| | ? ? IH | ? ? ? IH | ? ? IH | ? ? IH | ? ? IH
                              | ? ? ? IH | ? IH | ? IH | ? ? IH]; intros l w;
    cbn [Handlers.withLogger Handlers.observed run]; auto.
  destruct (response_Write data (resp w)); apply IH.
Qed.

Lemma observed_deferRecover (l : Handlers.responseLogger) (p : Prog)
    (h : string -> Prog) (w : World) :
  Handlers.observed env l (deferRecover p h) w =
  match run env p w with
  | (Returned, _) => Handlers.observed env l p w
  | (Panicked v, w') => Handlers.observed env (Handlers.observed env l p w) (h v) w'
  end.
Proof.
  revert l w; induction p as [| | ? ? IH | ? ? ? IH | ? ? IH | ? ? IH | ? ? IH
                              | ? ? ? IH | ? IH | ? IH | ? ? IH]; intros l w;
    cbn [deferRecover Handlers.observed run]; auto.
  destruct (response_Write data (resp w)); apply IH.
Qed.

End RunLemmas.

(** ** The response writer *)

Lemma response_WriteHeader_bodyless code w :
  bodyless w -> bodyless (response_WriteHeader code w).
Proof.
  unfold bodyless, response_WriteHeader.
  destruct (wroteHeader w) eqn:E; cbn; [rewrite E|]; intros; congruence.
Qed.

Lemma response_Write_wrote data w :
  wroteHeader (fst (response_Write data w)) = true.
Proof.
  unfold response_Write, response_WriteHeader.
  destruct (wroteHeader w) eqn:E; cbn; auto.
  destruct (bodyAllowedForStatus (status w)); cbn; auto.
Qed.

Lemma run_bodyless env p w :
  bodyless (resp w) -> bodyless (resp (snd (run env p w))).
Proof.
  revert w; induction p as [| | ? ? IH | ? ? ? IH | ? ? IH | ? ? IH | ? ? IH
                            | ? ? ? IH | ? IH | ? IH | ? ? IH]; intros w Hw;
    cbn [run snd]; auto; try (apply IH; cbn; exact Hw).
  - apply IH; cbn. now apply response_WriteHeader_bodyless.
  - pose proof (response_Write_wrote data (resp w)) as Hwrote.
    destruct (response_Write data (resp w)) as [r n]; cbn in Hwrote.
    apply IH; cbn. unfold bodyless; congruence.
Qed.

(** ** The panic-recovery middleware *)

(** [logError] always returns. *)
Lemma logError_returns env err withTrace w :
  fst (run env (logError err withTrace) w) = Returned.
Proof.
  unfold logError, Error.
  destruct withTrace; cbn [run andThen fst];
    match goal with |- context [response_Write ?d ?r] =>
      destruct (response_Write d r) end; reflexivity.
Qed.

(** What [logError] does to a response whose header is still unsent. *)
Lemma run_logError env err w :
  wroteHeader (resp w) = false ->
  IsLevelEnabled (level env) ErrorLevel = true ->
  exists w',
    run env (logError err true) w = (Returned, w')
    /\ wroteHeader (resp w') = true
    /\ status (resp w') = StatusInternalServerError
    /\ sentHeader (resp w') !! "Connection" = Some ["close"]
    /\ written (resp w') =
         written (resp w) +:+ "There was an error processing your request" +:+ newline
    /\ stdout w' =
         (stdout w ++ [LogrusLine ErrorLevel err; LogrusLine ErrorLevel (stack env)])%list.
Proof.
  intros Hw Hlvl.
  unfold logError, Error.
  cbn [run andThen resp stdout setHandlerHeader handlerHeader wroteHeader status
         sentHeader written].
  unfold response_Write, response_WriteHeader, logrus_write.
  rewrite Hlvl.
  cbn [wroteHeader status sentHeader written handlerHeader setHandlerHeader].
  rewrite Hw.
  cbn [wroteHeader status sentHeader written handlerHeader setHandlerHeader].
  change (bodyAllowedForStatus StatusInternalServerError) with true.
  cbn iota.
  eexists; split; [reflexivity|].
  cbn [resp stdout wroteHeader status sentHeader written].
  repeat split.
  - rewrite !lookup_insert_ne by discriminate. apply lookup_insert_eq.
  - now rewrite <- app_assoc.
Qed.

(** The logger of [main] writes entries of level error, with and without
    the debug flag. *)
Lemma logLevel_enables_error cfg :
  IsLevelEnabled (logLevel cfg) ErrorLevel = true.
Proof. unfold logLevel; destruct (debugOutput cfg); reflexivity. Qed.

(** What [logError] writes to standard output, whatever the state of the
    response. *)
Lemma stdout_logError env err w :
  stdout (snd (run env (logError err true) w)) =
  logrus_write (level env) ErrorLevel (stack env)
    (logrus_write (level env) ErrorLevel err (stdout w)).
Proof.
  unfold logError, Error.
  cbn [run andThen resp stdout snd].
  match goal with |- context [response_Write ?d ?r] =>
    destruct (response_Write d r) end.
  reflexivity.
Qed.

(** The wrapper of the logging handler has seen status 500 when
    [logError] has run. *)
Lemma observed_logError env l err w :
  Handlers.rl_status (Handlers.observed env l (logError err true) w) =
  StatusInternalServerError.
Proof.
  unfold logError, Error.
  cbn [Handlers.observed andThen resp stdout].
  match goal with |- context [response_Write ?d ?r] =>
    destruct (response_Write d r) end.
  reflexivity.
Qed.

Lemma recoverPanic_returns env next r w :
  fst (run env (recoverPanic next r) w) = Returned.
Proof.
  unfold recoverPanic. rewrite run_deferRecover.
  destruct (run env (next r) w) as [[|v] w1]; [reflexivity|].
  apply logError_returns.
Qed.

(** ** The router *)

Lemma HasPrefix_slash s : HasPrefix (String "/" s) "/" = true.
Proof.
  unfold HasPrefix; cbn.
  destruct (Ascii.ascii_dec "/" "/"); [now destruct s|contradiction].
Qed.

(** The canonical form of a path starts with a slash. *)
Lemma Clean_rooted p :
  HasPrefix p "/" = true -> HasPrefix (GoPath.Clean p) "/" = true.
Proof.
  intros H. unfold GoPath.Clean.
  destruct p as [|c p]; [discriminate H|].
  cbn [String.eqb]. rewrite H. apply HasPrefix_slash.
Qed.

Lemma HasPrefix_app s t p :
  HasPrefix s p = true -> HasPrefix (s +:+ t) p = true.
Proof.
  unfold HasPrefix. revert s; induction p as [|a p IH]; intros s H;
    [now destruct s, t|].
  destruct s as [|b s]; [discriminate H|].
  change (String b s +:+ t) with (String b (s +:+ t)).
  cbn [String.prefix] in *.
  destruct (Ascii.ascii_dec a b); [now apply IH|discriminate H].
Qed.

Lemma cleanPath_rooted p : HasPrefix (Mux.cleanPath p) "/" = true.
Proof.
  unfold Mux.cleanPath.
  destruct (String.eqb p ""); [reflexivity|].
  assert (Hp1 : HasPrefix (if HasPrefix p "/" then p else "/" +:+ p) "/" = true).
  { destruct (HasPrefix p "/") eqn:E; [exact E|apply HasPrefix_slash]. }
  pose proof (Clean_rooted _ Hp1) as Hc.
  destruct (_ && _); [now apply HasPrefix_app|exact Hc].
Qed.

(** A request whose path is in canonical form goes to the final handler
    through both middlewares, the logging one outermost. *)
Lemma routesFor_canonical final r :
  Mux.cleanPath (NetURL.Path (URL r)) = NetURL.Path (URL r) ->
  routesFor final r = loggingMiddleware (recoverPanic final) r.
Proof.
  intros Hc. unfold routesFor, Mux.ServeHTTP.
  rewrite Hc, String.eqb_refl. cbn [negb].
  unfold Mux.Match.
  cbn [Mux.routeList Mux.PathPrefixHandlerFunc Mux.Use Mux.NewRouter
         Mux.middlewares app List.find Mux.pathPrefix Mux.routeHandler fold_right].
  pose proof (cleanPath_rooted (NetURL.Path (URL r))) as Hr.
  rewrite Hc in Hr. rewrite Hr. reflexivity.
Qed.

(** A request whose path is not in canonical form is answered by the
    router itself; no middleware and no handler runs. *)
Lemma routesFor_not_canonical final r :
  Mux.cleanPath (NetURL.Path (URL r)) <> NetURL.Path (URL r) ->
  routesFor final r =
  HeaderSet "Location"
    (NetURL.URL_String
       (NetURL.mkURL (NetURL.Scheme (URL r)) (NetURL.Host (URL r))
          (Mux.cleanPath (NetURL.Path (URL r))) (NetURL.RawQuery (URL r))))
    (WriteHeader StatusMovedPermanently Return).
Proof.
  intros Hc. unfold routesFor, Mux.ServeHTTP.
  destruct (String.eqb_spec (Mux.cleanPath (NetURL.Path (URL r))) (NetURL.Path (URL r)));
    [contradiction|reflexivity].
Qed.

Lemma loggingMiddleware_returns env next r w :
  fst (run env (next r) w) = Returned ->
  fst (run env (loggingMiddleware next r) w) = Returned.
Proof.
  intros H. unfold loggingMiddleware, Handlers.CombinedLoggingHandler.
  cbn [run]. rewrite run_withLogger.
  destruct (run env (next r) w) as [[|v] w1]; [reflexivity|discriminate H].
Qed.

Lemma routesFor_returns env final r w :
  fst (run env (routesFor final r) w) = Returned.
Proof.
  destruct (String.eqb_spec (Mux.cleanPath (NetURL.Path (URL r))) (NetURL.Path (URL r)))
    as [Hc|Hc].
  - rewrite (routesFor_canonical _ _ Hc).
    apply loggingMiddleware_returns, recoverPanic_returns.
  - rewrite (routesFor_not_canonical _ _ Hc). reflexivity.
Qed.

Lemma Serve_all_complete h :
  (forall env r w, fst (run env (h r) w) = Returned) ->
  forall reqs out,
    Forall isComplete (fst (Serve h reqs out))
    /\ length (fst (Serve h reqs out)) = length reqs.
Proof.
  intros Hh reqs; induction reqs as [|[env r] reqs IH]; intros out; cbn [Serve].
  - split; [constructor|reflexivity].
  - unfold serveRequest.
    specialize (Hh env r (mkWorld newResponse out)).
    destruct (run env (h r) (mkWorld newResponse out)) as [[|v] w1];
      [clear Hh|discriminate Hh].
    specialize (IH (stdout w1)).
    destruct (Serve h reqs (stdout w1)) as [replies out2]; cbn [fst] in *.
    destruct IH as [IH1 IH2]. split.
    + constructor; [eexists; reflexivity|exact IH1].
    + cbn. now rewrite IH2.
Qed.

(** C3: a panic raised while a request is handled never gets past
    [recoverPanic]: whatever the wrapped handler does, the middleware
    returns. So every request of a sequence served by the router gets a
    complete response, the ones after a faulting request included. *)
Theorem C3_panic_never_passes_recoverPanic (final : Handler) :
  (forall env r w, fst (run env (recoverPanic final r) w) = Returned)
  /\ (forall env r w, fst (run env (routesFor final r) w) = Returned)
  /\ (forall reqs out,
        Forall isComplete (fst (Serve (routesFor final) reqs out))
        /\ length (fst (Serve (routesFor final) reqs out)) = length reqs).
Proof.
  split; [|split].
  - intros; apply recoverPanic_returns.
  - intros; apply routesFor_returns.
  - apply Serve_all_complete. intros; apply routesFor_returns.
Qed.

(** C2, as the code has it: when the wrapped handler panics before any
    header has gone out, [recoverPanic] returns, the response has status
    500, the header [Connection: close] and the fixed text followed by a
    line feed as its body, and the panic text and the stack trace are
    written at level error, one after the other. *)
Theorem C2_panic_before_header_gives_500
    (cfg : Config) (next : Handler) (env : Env) (r : Request)
    (out : list Line) (v : string) (w1 : World) :
  level env = logLevel cfg ->
  run env (next r) (mkWorld newResponse out) = (Panicked v, w1) ->
  wroteHeader (resp w1) = false ->
  exists w2,
    run env (recoverPanic next r) (mkWorld newResponse out) = (Returned, w2)
    /\ serveRequest (recoverPanic next) env r out = (Complete (resp w2), stdout w2)
    /\ status (resp w2) = 500%Z
    /\ sentHeader (resp w2) !! "Connection" = Some ["close"]
    /\ written (resp w2) = "There was an error processing your request" +:+ newline
    /\ stdout w2 =
         (stdout w1 ++ [LogrusLine ErrorLevel v; LogrusLine ErrorLevel (stack env)])%list.
Proof.
  intros Hlvl Hnext Hw1.
  assert (Hen : IsLevelEnabled (level env) ErrorLevel = true)
    by (rewrite Hlvl; apply logLevel_enables_error).
  destruct (run_logError env v w1 Hw1 Hen)
    as (w2 & Hrun & Hwrote & Hst & Hconn & Hbody & Hout).
  assert (Hempty : written (resp w1) = "").
  { pose proof (run_bodyless env (next r) (mkWorld newResponse out)) as Hb.
    rewrite Hnext in Hb. apply Hb; [intros _; reflexivity|exact Hw1]. }
  assert (Hall : run env (recoverPanic next r) (mkWorld newResponse out) = (Returned, w2)).
  { unfold recoverPanic. rewrite run_deferRecover, Hnext. exact Hrun. }
  exists w2. repeat split; auto.
  - unfold serveRequest. rewrite Hall. unfold finishRequest. now rewrite Hwrote.
  - rewrite Hbody, Hempty. reflexivity.
Qed.

Lemma C2_panic_before_header_gives_500_witness :
  exists w2,
    run sampleEnv (recoverPanic panicsAtOnce sampleRequest) (mkWorld newResponse [])
    = (Returned, w2)
    /\ serveRequest (recoverPanic panicsAtOnce) sampleEnv sampleRequest []
       = (Complete (resp w2), stdout w2)
    /\ status (resp w2) = 500%Z
    /\ sentHeader (resp w2) !! "Connection" = Some ["close"]
    /\ written (resp w2) = "There was an error processing your request" +:+ newline
    /\ stdout w2 =
         (stdout (mkWorld newResponse [])
          ++ [LogrusLine ErrorLevel "boom"; LogrusLine ErrorLevel (stack sampleEnv)])%list.
Proof.
  apply (C2_panic_before_header_gives_500 defaultConfig panicsAtOnce sampleEnv
           sampleRequest [] "boom" (mkWorld newResponse []));
    reflexivity.
Defined.

(** C2 as the claim states it fails: a wrapped handler that has sent its
    header with status 200 and then panics leaves the client with status
    200 and without [Connection: close]; the later [WriteHeader(500)] is
    superfluous. *)
Lemma C2_counterexample :
  fst (run sampleEnv (panicsAfterHeader sampleRequest) (mkWorld newResponse []))
  = Panicked "boom"
  /\ exists r,
       fst (serveRequest (recoverPanic panicsAfterHeader) sampleEnv sampleRequest [])
       = Complete r
       /\ status r = 200%Z
       /\ status r <> 500%Z
       /\ sentHeader r !! "Connection" = None.
Proof.
  split; [reflexivity|].
  eexists; split; [vm_compute; reflexivity|].
  split; [reflexivity|]. split; [discriminate|]. vm_compute; reflexivity.
Qed.

(** ** The logging middleware *)

(** The logging middleware in terms of the wrapped handler. *)
Lemma run_loggingMiddleware env next r w :
  run env (loggingMiddleware next r) w =
  match run env (next r) w with
  | (Returned, w1) =>
      (Returned,
       mkWorld (resp w1)
         (stdout w1
          ++ [AccessLine
                (Handlers.combinedLine r (now env)
                   (Handlers.observed env Handlers.makeLogger (next r) w))]))
  | (Panicked v, w1) => (Panicked v, w1)
  end.
Proof.
  unfold loggingMiddleware, Handlers.CombinedLoggingHandler.
  cbn [run]. rewrite run_withLogger.
  now destruct (run env (next r) w) as [[|v] w1].
Qed.

(** C7: [loggingMiddleware] ends as the wrapped handler ends and leaves
    the response as the wrapped handler alone would have left it; when the
    wrapped handler has returned, standard output holds what the wrapped
    handler wrote followed by exactly one access log line for the
    request, stamped with the time at which the request came in. *)
Theorem C7_logging_adds_one_line_and_keeps_response
    (next : Handler) (env : Env) (r : Request) (w : World) :
  fst (run env (loggingMiddleware next r) w) = fst (run env (next r) w)
  /\ resp (snd (run env (loggingMiddleware next r) w)) = resp (snd (run env (next r) w))
  /\ (fst (run env (next r) w) = Returned ->
      exists l,
        stdout (snd (run env (loggingMiddleware next r) w)) =
        (stdout (snd (run env (next r) w))
         ++ [AccessLine (Handlers.combinedLine r (now env) l)])%list).
Proof.
  rewrite run_loggingMiddleware.
  destruct (run env (next r) w) as [[|v] w1]; cbn [run fst snd resp stdout].
  - repeat split; auto. intros _. eexists; reflexivity.
  - repeat split; auto. intros H; discriminate H.
Qed.

Lemma C7_logging_adds_one_line_and_keeps_response_witness :
  fst (run sampleEnv (catchAllHandler defaultConfig sampleRequest) (mkWorld newResponse []))
  = Returned
  /\ exists l,
       stdout (snd (run sampleEnv
                      (loggingMiddleware (catchAllHandler defaultConfig) sampleRequest)
                      (mkWorld newResponse []))) =
       (stdout (snd (run sampleEnv (catchAllHandler defaultConfig sampleRequest)
                       (mkWorld newResponse [])))
        ++ [AccessLine (Handlers.combinedLine sampleRequest (now sampleEnv) l)])%list.
Proof.
  split; [reflexivity|].
  apply (C7_logging_adds_one_line_and_keeps_response (catchAllHandler defaultConfig)
           sampleEnv sampleRequest (mkWorld newResponse [])).
  reflexivity.
Defined.

(** C9: the logging middleware is the outermost one, so on a request
    that reaches a panicking handler the router returns, and the last
    thing on standard output, after the two error entries of the
    recovery, is the access log line of the request; its status is the
    500 that the recovery passed to [WriteHeader]. *)
Theorem C9_panic_is_access_logged_with_500
    (cfg : Config) (final : Handler) (env : Env) (r : Request) (w : World)
    (v : string) (w1 : World) :
  level env = logLevel cfg ->
  Mux.cleanPath (NetURL.Path (URL r)) = NetURL.Path (URL r) ->
  run env (final r) w = (Panicked v, w1) ->
  routesFor final r = loggingMiddleware (recoverPanic final) r
  /\ exists w2 l,
       run env (routesFor final r) w = (Returned, w2)
       /\ Handlers.rl_status l = 500%Z
       /\ stdout w2 =
            (stdout w1
             ++ [LogrusLine ErrorLevel v; LogrusLine ErrorLevel (stack env);
                 AccessLine (Handlers.combinedLine r (now env) l)])%list
       /\ cl_status (Handlers.combinedLine r (now env) l) = 500%Z.
Proof.
  intros Hlvl Hc Hfinal.
  split; [now apply routesFor_canonical|].
  rewrite (routesFor_canonical _ _ Hc).
  unfold loggingMiddleware, Handlers.CombinedLoggingHandler.
  cbn [run]. rewrite run_withLogger.
  unfold recoverPanic at 1. rewrite run_deferRecover, Hfinal.
  pose proof (logError_returns env v true w1) as Hret.
  pose proof (stdout_logError env v w1) as Hout.
  destruct (run env (logError v true) w1) as [[|v'] w2] eqn:Hrun;
    [|discriminate Hret].
  cbn [snd] in Hout. cbn [run resp stdout].
  eexists; eexists. split; [reflexivity|].
  assert (Hst : Handlers.rl_status
                  (Handlers.observed env Handlers.makeLogger (recoverPanic final r) w)
                = 500%Z).
  { unfold recoverPanic. rewrite observed_deferRecover, Hfinal.
    apply observed_logError. }
  split; [exact Hst|]. split; [|exact Hst].
  cbn [stdout]. rewrite Hout. unfold logrus_write.
  rewrite Hlvl, logLevel_enables_error.
  now rewrite <- !app_assoc.
Qed.

Lemma C9_panic_is_access_logged_with_500_witness :
  exists w2 l,
    run sampleEnv (routesFor panicsAfterHeader sampleRequest) (mkWorld newResponse [])
    = (Returned, w2)
    /\ Handlers.rl_status l = 500%Z
    /\ stdout w2 =
         (stdout (mkWorld (response_WriteHeader StatusOK newResponse) [])
          ++ [LogrusLine ErrorLevel "boom"; LogrusLine ErrorLevel (stack sampleEnv);
              AccessLine (Handlers.combinedLine sampleRequest (now sampleEnv) l)])%list
    /\ cl_status (Handlers.combinedLine sampleRequest (now sampleEnv) l) = 500%Z.
Proof.
  apply (C9_panic_is_access_logged_with_500 defaultConfig panicsAfterHeader sampleEnv
           sampleRequest (mkWorld newResponse []) "boom"
           (mkWorld (response_WriteHeader StatusOK newResponse) []));
    reflexivity.
Defined.

(** ** The redirect handler *)


(** What [http.Redirect] does to a response whose header is unsent. *)
Lemma run_Redirect env r url code w :
  wroteHeader (resp w) = false ->
  exists w',
    run env (Redirect r url code) w = (Returned, w')
    /\ wroteHeader (resp w') = true
    /\ status (resp w') = code
    /\ sentHeader (resp w') !! "Location"
       = Some [hexEscapeNonASCII (redirectTarget r url)]
    /\ stdout w' = stdout w.
Proof.
  intros Hw. unfold Redirect. cbn [run].
  destruct (handlerHeader (resp w) !! "Content-Type") as [ct|];
    destruct (String.eqb (Method r) "GET"), (String.eqb (Method r) "HEAD");
    cbn [negb andb orb andThen run resp stdout setHandlerHeader handlerHeader
           wroteHeader status sentHeader written];
    unfold response_Write, response_WriteHeader, setHandlerHeader;
    cbn [wroteHeader status sentHeader written handlerHeader];
    rewrite ?Hw;
    cbn [wroteHeader status sentHeader written handlerHeader];
    try destruct (bodyAllowedForStatus code);
    (eexists; split; [reflexivity|]);
    cbn [resp stdout wroteHeader status sentHeader written];
    repeat split;
    rewrite ?lookup_insert_ne by discriminate; apply lookup_insert_eq.
Qed.

(** The target of the redirect looks at the request path only for a
    relative target without a leading slash. *)
Lemma redirectTarget_same r1 r2 url :
  NetURL.Path (URL r1) = NetURL.Path (URL r2)
  \/ isRelative url = false \/ HasPrefix url "/" = true ->
  redirectTarget r1 url = redirectTarget r2 url.
Proof.
  unfold redirectTarget. intros [Hp|[Hrel|Hslash]].
  - now rewrite Hp.
  - now rewrite Hrel.
  - rewrite Hslash. destruct url as [|c url]; [discriminate Hslash|].
    reflexivity.
Qed.


(** C6, as the code has it: the redirect handler reads the method and the
    path of the request and nothing else, and the path only to resolve a
    relative target that has no leading slash. For two requests that
    differ only in path, query or body it behaves the same, response and
    output, when the paths agree, or the target is not relative (a scheme
    or a host, or rejected by the parser), or the target starts with a
    slash. *)
Theorem C6_redirect_ignores_query_body_and_path_of_absolute_target
    (cfg : Config) (env : Env) (r1 r2 : Request) (w : World) :
  sameButPathQueryBody r1 r2 ->
  NetURL.Path (URL r1) = NetURL.Path (URL r2)
  \/ isRelative (redirect cfg) = false \/ HasPrefix (redirect cfg) "/" = true ->
  run env (catchAllHandler cfg r1) w = run env (catchAllHandler cfg r2) w.
Proof.
  intros (Hm & _) Ht. unfold catchAllHandler, Redirect.
  rewrite (redirectTarget_same r1 r2 (redirect cfg) Ht), Hm. reflexivity.
Qed.

Lemma C6_redirect_ignores_query_body_and_path_of_absolute_target_witness :
  run sampleEnv (catchAllHandler defaultConfig sampleRequest) (mkWorld newResponse [])
  = run sampleEnv (catchAllHandler defaultConfig otherRequest) (mkWorld newResponse []).
Proof.
  apply (C6_redirect_ignores_query_body_and_path_of_absolute_target defaultConfig
           sampleEnv sampleRequest otherRequest (mkWorld newResponse [])).
  - repeat split; reflexivity.
  - right; left; reflexivity.
Defined.

(** C6 as the claim states it fails: with the relative target [login],
    two requests that differ only in their path get different [Location]
    headers, each resolved against the directory of its own path. *)
Lemma C6_counterexample :
  sameButPathQueryBody sampleRequest otherRequest
  /\ sentHeader (resp (snd (run sampleEnv (catchAllHandler relativeConfig sampleRequest)
                              (mkWorld newResponse []))))
     !! "Location" = Some ["/login"]
  /\ sentHeader (resp (snd (run sampleEnv (catchAllHandler relativeConfig otherRequest)
                              (mkWorld newResponse []))))
     !! "Location" = Some ["/other/login"].
Proof.
  split; [repeat split; reflexivity|].
  split; vm_compute; reflexivity.
Qed.

(** ** The server as a whole *)

(** A request with a canonical path gets the response that
    [http.Redirect] makes, and one access log line. *)
Lemma routes_canonical cfg env r out :
  Mux.cleanPath (NetURL.Path (URL r)) = NetURL.Path (URL r) ->
  exists rsp l,
    serveRequest (routes cfg) env r out
    = (Complete rsp, (out ++ [AccessLine (Handlers.combinedLine r (now env) l)])%list)
    /\ status rsp = 301%Z
    /\ sentHeader rsp !! "Location"
       = Some [hexEscapeNonASCII (redirectTarget r (redirect cfg))].
Proof.
  intros Hc. unfold serveRequest, routes.
  rewrite (routesFor_canonical _ _ Hc), run_loggingMiddleware.
  unfold recoverPanic at 1. rewrite run_deferRecover.
  unfold catchAllHandler at 1.
  destruct (run_Redirect env r (redirect cfg) StatusMovedPermanently
              (mkWorld newResponse out) eq_refl)
    as (w' & Hrun & Hwrote & Hst & Hloc & Hout).
  rewrite Hrun. cbn [resp stdout]. unfold finishRequest. rewrite Hwrote, Hout.
  eexists; eexists; split; [reflexivity|]. now split.
Qed.

(** A request whose path is not canonical gets the router's own
    redirect to the canonical path, and no access log line. *)
Lemma routes_not_canonical cfg env r out :
  Mux.cleanPath (NetURL.Path (URL r)) <> NetURL.Path (URL r) ->
  exists rsp,
    serveRequest (routes cfg) env r out = (Complete rsp, out)
    /\ status rsp = 301%Z
    /\ sentHeader rsp !! "Location"
       = Some [NetURL.URL_String
                 (NetURL.mkURL (NetURL.Scheme (URL r)) (NetURL.Host (URL r))
                    (Mux.cleanPath (NetURL.Path (URL r))) (NetURL.RawQuery (URL r)))].
Proof.
  intros Hc. unfold serveRequest, routes.
  rewrite (routesFor_not_canonical _ _ Hc).
  cbn [run resp stdout]. unfold response_WriteHeader, setHandlerHeader, finishRequest.
  cbn [wroteHeader newResponse handlerHeader status sentHeader].
  eexists; split; [reflexivity|]. split; [reflexivity|].
  cbn [sentHeader]. apply lookup_insert_eq.
Qed.

(** Every request is answered with status 301. *)
Lemma routes_status_301 cfg env r out :
  exists rsp out',
    serveRequest (routes cfg) env r out = (Complete rsp, out')
    /\ status rsp = 301%Z.
Proof.
  destruct (String.eqb_spec (Mux.cleanPath (NetURL.Path (URL r))) (NetURL.Path (URL r)))
    as [Hc|Hc].
  - destruct (routes_canonical cfg env r out Hc) as (rsp & l & H & Hst & _); eauto.
  - destruct (routes_not_canonical cfg env r out Hc) as (rsp & H & Hst & _); eauto.
Qed.




(** Nor is [Location] the configured target when that target is a
    relative reference: it is resolved against the request path. *)
Lemma relative_target_is_resolved :
  exists rsp out',
    serveRequest (routes relativeConfig) sampleEnv otherRequest [] = (Complete rsp, out')
    /\ sentHeader rsp !! "Location" = Some ["/other/login"].
Proof.
  eexists; eexists; split; vm_compute; reflexivity.
Qed.

(** And a target with bytes outside ASCII arrives percent-escaped. *)
Lemma non_ascii_target_is_escaped :
  exists rsp out',
    serveRequest (routes accentConfig) sampleEnv sampleRequest [] = (Complete rsp, out')
    /\ sentHeader rsp !! "Location" = Some ["https://example.com/caf%c3%a9"].
Proof.
  eexists; eexists; split; vm_compute; reflexivity.
Qed.

(** ** The process *)


Ltac step_cases H :=
  unfold step in H;
  repeat match type of H with
         | context [match ?x with _ => _ end] => destruct x eqn:?
         end;
  try discriminate H;
  injection H as <-; cbn [mainpc servepc sigchan out] in *.

Lemma exec_app cfg e1 e2 p :
  exec cfg (e1 ++ e2) p =
  match exec cfg e1 p with
  | Some q => exec cfg e2 q
  | None => None
  end.
Proof.
  revert p; induction e1 as [|e e1 IH]; intros p; cbn [exec app]; [reflexivity|].
  destruct (step cfg e p); [apply IH|reflexivity].
Qed.

(** After the exit nothing happens. *)
Lemma exec_exited cfg evs p q code :
  mainpc p = Exited code -> exec cfg evs p = Some q -> evs = [].
Proof.
  intros Hp. destruct evs as [|e evs]; [reflexivity|].
  cbn [exec]. unfold step. rewrite Hp. discriminate.
Qed.

(** From inside [Shutdown], the exit is the return of [Shutdown]. *)
Lemma exec_from_InShutdown cfg evs p q code :
  mainpc p = InShutdown ->
  exec cfg evs p = Some q ->
  mainpc q = Exited code ->
  exists e3 r, evs = (e3 ++ [ShutdownReturns r])%list /\ code = exitCode r.
Proof.
  revert p; induction evs as [|e evs IH]; intros p Hp Hex Hq; cbn [exec] in Hex.
  - injection Hex as <-. congruence.
  - destruct (step cfg e p) as [p'|] eqn:Hstep; [|discriminate Hex].
    destruct (mainpc p') as [| |code'] eqn:Hp'.
    + step_cases Hstep; congruence.
    + destruct (IH p' Hp' Hex Hq) as (e3 & r & -> & ->).
      exists (e :: e3), r. now split.
    + pose proof (exec_exited cfg evs p' q code' Hp' Hex) as ->.
      cbn [exec] in Hex. injection Hex as <-.
      step_cases Hstep; try congruence;
        injection Hp' as <-; injection Hq as <-;
        eexists [], _; split; reflexivity.
Qed.

(** From the wait with a signal in the channel, the exit needs the
    receive and the return of [Shutdown]. *)
Lemma exec_from_AwaitSignal cfg evs p q code :
  mainpc p = AwaitSignal ->
  exec cfg evs p = Some q ->
  mainpc q = Exited code ->
  exists e2 e3 r,
    evs = (e2 ++ Receive :: e3 ++ [ShutdownReturns r])%list /\ code = exitCode r.
Proof.
  revert p; induction evs as [|e evs IH]; intros p Hp Hex Hq; cbn [exec] in Hex.
  - injection Hex as <-. congruence.
  - destruct (step cfg e p) as [p'|] eqn:Hstep; [|discriminate Hex].
    destruct (mainpc p') as [| |code'] eqn:Hp'.
    + destruct (IH p' Hp' Hex Hq) as (e2 & e3 & r & -> & ->).
      exists (e :: e2), e3, r. now split.
    + destruct (exec_from_InShutdown cfg evs p' q code Hp' Hex Hq) as (e3 & r & -> & ->).
      assert (e = Receive) as -> by (step_cases Hstep; congruence).
      exists [], e3, r. now split.
    + step_cases Hstep; congruence.
Qed.

(** With an empty channel, a signal has to be delivered first. *)
Lemma exec_from_empty_channel cfg evs p q code :
  mainpc p = AwaitSignal ->
  sigchan p = None ->
  exec cfg evs p = Some q ->
  mainpc q = Exited code ->
  exists r, shutdownPath evs r /\ code = exitCode r.
Proof.
  revert p; induction evs as [|e evs IH]; intros p Hp Hc Hex Hq; cbn [exec] in Hex.
  - injection Hex as <-. congruence.
  - destruct (step cfg e p) as [p'|] eqn:Hstep; [|discriminate Hex].
    destruct e as [s| |err| |r0].
    + assert (Hp' : mainpc p' = AwaitSignal) by (step_cases Hstep; congruence).
      destruct (exec_from_AwaitSignal cfg evs p' q code Hp' Hex Hq)
        as (e2 & e3 & r & -> & ->).
      exists r. split; [|reflexivity]. exists s, [], e2, e3. reflexivity.
    + step_cases Hstep; congruence.
    + assert (Hp' : mainpc p' = AwaitSignal /\ sigchan p' = None)
        by (step_cases Hstep; split; congruence).
      destruct Hp' as [Hp' Hc'].
      destruct (IH p' Hp' Hc' Hex Hq) as (r & (s & e1 & e2 & e3 & ->) & ->).
      exists r. split; [|reflexivity].
      exists s, (ServeReturns err :: e1), e2, e3. reflexivity.
    + assert (Hp' : mainpc p' = AwaitSignal /\ sigchan p' = None)
        by (step_cases Hstep; split; congruence).
      destruct Hp' as [Hp' Hc'].
      destruct (IH p' Hp' Hc' Hex Hq) as (r & (s & e1 & e2 & e3 & ->) & ->).
      exists r. split; [|reflexivity].
      exists s, (ServeLogs :: e1), e2, e3. reflexivity.
    + step_cases Hstep; congruence.
Qed.

(** A process that has exited went down the shutdown path, and its exit
    code is the one that the result of [Shutdown] determines. *)
Lemma main_exit_is_shutdownPath cfg evs q code :
  main cfg evs = Some q ->
  mainpc q = Exited code ->
  exists r, shutdownPath evs r /\ code = exitCode r.
Proof.
  unfold main. now apply exec_from_empty_channel.
Qed.

(** Once [main] has left the wait, it does not receive again. *)
Lemma receives_after_wait cfg evs p q :
  mainpc p <> AwaitSignal ->
  exec cfg evs p = Some q ->
  receives evs = 0 /\ mainpc q <> AwaitSignal.
Proof.
  revert p; induction evs as [|e evs IH]; intros p Hp Hex; cbn [exec] in Hex.
  - injection Hex as <-. now split.
  - destruct (step cfg e p) as [p'|] eqn:Hstep; [|discriminate Hex].
    assert (Hp' : mainpc p' <> AwaitSignal /\ isReceive e = false)
      by (step_cases Hstep; split; first [congruence|reflexivity]).
    destruct Hp' as [Hp' He]. destruct (IH p' Hp' Hex) as [Hn Hq].
    split; [|exact Hq]. unfold receives in *. cbn [List.filter]. now rewrite He.
Qed.

Lemma receives_from_wait cfg evs p q :
  mainpc p = AwaitSignal ->
  exec cfg evs p = Some q ->
  (mainpc q = AwaitSignal /\ receives evs = 0)
  \/ (mainpc q <> AwaitSignal /\ receives evs = 1).
Proof.
  revert p; induction evs as [|e evs IH]; intros p Hp Hex; cbn [exec] in Hex.
  - injection Hex as <-. now left.
  - destruct (step cfg e p) as [p'|] eqn:Hstep; [|discriminate Hex].
    destruct (isReceive e) eqn:He.
    + assert (Hp' : mainpc p' <> AwaitSignal)
        by (destruct e; try discriminate He; step_cases Hstep; congruence).
      destruct (receives_after_wait cfg evs p' q Hp' Hex) as [Hn Hq].
      right. split; [exact Hq|]. unfold receives in *. cbn [List.filter].
      rewrite He. cbn [length]. now rewrite Hn.
    + assert (Hp' : mainpc p' = AwaitSignal)
        by (destruct e; try discriminate He; step_cases Hstep; congruence).
      unfold receives in *. cbn [List.filter]. rewrite He. now apply (IH p').
Qed.






(** C5: when [ListenAndServe] fails while [main] waits for a signal, the
    goroutine writes the error at level error and [main] goes on waiting,
    the channel untouched; and if the process exits later, the whole
    execution has gone down the shutdown path: a signal was delivered,
    [main] received it, and the exit is the return of [Shutdown]. *)
Theorem C5_serve_failure_leaves_main_waiting
    (cfg : Config) (evs : list Event) (p : Process) (err : error) :
  main cfg evs = Some p ->
  mainpc p = AwaitSignal ->
  servepc p = InListenAndServe ->
  exists p2,
    exec cfg [ServeReturns err; ServeLogs] p = Some p2
    /\ mainpc p2 = AwaitSignal
    /\ sigchan p2 = sigchan p
    /\ out p2 = (out p ++ [LogrusLine ErrorLevel (errorText err)])%list
    /\ forall evs' q code,
         exec cfg evs' p2 = Some q ->
         mainpc q = Exited code ->
         exists r,
           shutdownPath (evs ++ [ServeReturns err; ServeLogs] ++ evs') r
           /\ code = exitCode r.
Proof.
  intros Hmain Hp Hs.
  assert (Hex : exec cfg [ServeReturns err; ServeLogs] p
                = Some (mkProcess AwaitSignal ServeFinished (sigchan p)
                          (out p ++ [LogrusLine ErrorLevel (errorText err)]))).
  { cbn [exec]. unfold step. rewrite Hp, Hs. cbn [mainpc servepc sigchan out].
    unfold serveLog, logrus_write. now rewrite logLevel_enables_error. }
  eexists; split; [exact Hex|]. repeat split.
  intros evs' q code Hq Hcode.
  apply (main_exit_is_shutdownPath cfg _ q code); [|exact Hcode].
  unfold main in *. now rewrite exec_app, Hmain, exec_app, Hex.
Qed.

Lemma C5_serve_failure_leaves_main_waiting_witness :
  exists p2,
    exec defaultConfig [ServeReturns bindFailure; ServeLogs] (start defaultConfig) = Some p2
    /\ mainpc p2 = AwaitSignal
    /\ sigchan p2 = sigchan (start defaultConfig)
    /\ out p2 = (out (start defaultConfig)
                 ++ [LogrusLine ErrorLevel (errorText bindFailure)])%list
    /\ forall evs' q code,
         exec defaultConfig evs' p2 = Some q ->
         mainpc q = Exited code ->
         exists r,
           shutdownPath ([] ++ [ServeReturns bindFailure; ServeLogs] ++ evs') r
           /\ code = exitCode r.
Proof.
  apply (C5_serve_failure_leaves_main_waiting defaultConfig [] (start defaultConfig)
           bindFailure); reflexivity.
Defined.




(** C10: while [main] is inside [Shutdown], a further signal changes
    neither thread nor standard output, whether the channel has room for
    it or not, and [main] cannot receive again; in every execution [main]
    has received from the channel at most once, and exactly once when it
    is inside [Shutdown]. *)
Theorem C10_later_signals_change_nothing
    (cfg : Config) (evs : list Event) (p : Process) (s : Signal) :
  main cfg evs = Some p ->
  receives evs <= 1
  /\ (mainpc p = InShutdown ->
      receives evs = 1
      /\ step cfg Receive p = None
      /\ exists q,
           step cfg (Deliver s) p = Some q
           /\ mainpc q = InShutdown
           /\ servepc q = servepc p
           /\ out q = out p
           /\ step cfg Receive q = None).
Proof.
  intros Hmain.
  destruct (receives_from_wait cfg evs (start cfg) p eq_refl Hmain) as [[Hq Hn]|[Hq Hn]].
  - split; [lia|]. intros Hp. congruence.
  - split; [lia|]. intros Hp. split; [exact Hn|].
    unfold step. rewrite Hp. split; [reflexivity|].
    eexists; split; [reflexivity|]. repeat split.
Qed.

Lemma C10_later_signals_change_nothing_witness :
  receives (signalled ++ [Deliver SIGINT]) <= 1
  /\ (InShutdown = InShutdown ->
      receives (signalled ++ [Deliver SIGINT]) = 1
      /\ step defaultConfig Receive
           (mkProcess InShutdown InListenAndServe (Some SIGINT)
              [LogrusLine InfoLevel "Starting server on 0.0.0.0:8080"]) = None
      /\ exists q,
           step defaultConfig (Deliver SIGTERM)
             (mkProcess InShutdown InListenAndServe (Some SIGINT)
                [LogrusLine InfoLevel "Starting server on 0.0.0.0:8080"]) = Some q
           /\ mainpc q = InShutdown
           /\ servepc q = InListenAndServe
           /\ out q = [LogrusLine InfoLevel "Starting server on 0.0.0.0:8080"]
           /\ step defaultConfig Receive q = None).
Proof.
  apply (C10_later_signals_change_nothing defaultConfig (signalled ++ [Deliver SIGINT])
           (mkProcess InShutdown InListenAndServe (Some SIGINT)
              [LogrusLine InfoLevel "Starting server on 0.0.0.0:8080"]) SIGTERM).
  reflexivity.
Defined.


(** * Further properties *)

(** ** The panic-recovery middleware on its other paths *)

(** [recoverPanic] around a handler that returns is that handler: it
    touches neither the response (the header [Connection: close] is set on
    a panic only) nor standard output. *)
Theorem recoverPanic_is_next_when_next_returns
    (next : Handler) (env : Env) (r : Request) (w w1 : World) :
  run env (next r) w = (Returned, w1) ->
  run env (recoverPanic next r) w = (Returned, w1).
Proof.
  intros H. unfold recoverPanic. now rewrite run_deferRecover, H.
Qed.

Lemma recoverPanic_is_next_when_next_returns_witness :
  run sampleEnv (recoverPanic (catchAllHandler exampleConfig) sampleRequest)
    (mkWorld newResponse [])
  = run sampleEnv (catchAllHandler exampleConfig sampleRequest) (mkWorld newResponse []).
Proof.
  apply (recoverPanic_is_next_when_next_returns (catchAllHandler exampleConfig)
           sampleEnv sampleRequest (mkWorld newResponse [])).
  vm_compute. reflexivity.
Defined.

(** Wrapping twice is wrapping once: the inner [recoverPanic] stops every
    panic, so the outer one never has anything to recover. *)
Theorem recoverPanic_twice_is_once
    (next : Handler) (env : Env) (r : Request) (w : World) :
  run env (recoverPanic (recoverPanic next) r) w = run env (recoverPanic next r) w.
Proof.
  pose proof (recoverPanic_returns env next r w) as Hret.
  unfold recoverPanic at 1. rewrite run_deferRecover.
  destruct (run env (recoverPanic next r) w) as [[|v] w1];
    [reflexivity|discriminate Hret].
Qed.

(** When the wrapped handler panics after its header has gone out, the
    recovery cannot take it back: status and sent headers stay as the
    handler left them, and the two error entries are written all the
    same. *)
Theorem recoverPanic_after_header_keeps_status
    (cfg : Config) (next : Handler) (env : Env) (r : Request) (w : World)
    (v : string) (w1 : World) :
  level env = logLevel cfg ->
  run env (next r) w = (Panicked v, w1) ->
  wroteHeader (resp w1) = true ->
  exists w2,
    run env (recoverPanic next r) w = (Returned, w2)
    /\ status (resp w2) = status (resp w1)
    /\ sentHeader (resp w2) = sentHeader (resp w1)
    /\ stdout w2 =
         (stdout w1 ++ [LogrusLine ErrorLevel v; LogrusLine ErrorLevel (stack env)])%list.
Proof.
  intros Hlvl Hnext Hw1.
  unfold recoverPanic. rewrite run_deferRecover, Hnext.
  unfold logError, Error.
  cbn [run andThen resp stdout].
  unfold response_Write, response_WriteHeader, setHandlerHeader, logrus_write.
  cbn [wroteHeader status sentHeader written handlerHeader].
  rewrite Hw1, Hlvl, logLevel_enables_error.
  cbn [wroteHeader status sentHeader written handlerHeader].
  destruct (bodyAllowedForStatus (status (resp w1)));
    (eexists; split; [reflexivity|]); cbn [resp stdout status sentHeader written];
    repeat split; now rewrite <- app_assoc.
Qed.

Lemma recoverPanic_after_header_keeps_status_witness :
  exists w2,
    run sampleEnv (recoverPanic panicsAfterHeader sampleRequest) (mkWorld newResponse [])
    = (Returned, w2)
    /\ status (resp w2) = 200%Z
    /\ sentHeader (resp w2) = ∅
    /\ stdout w2 = [LogrusLine ErrorLevel "boom"; LogrusLine ErrorLevel (stack sampleEnv)].
Proof.
  apply (recoverPanic_after_header_keeps_status defaultConfig panicsAfterHeader sampleEnv
           sampleRequest (mkWorld newResponse []) "boom"
           (mkWorld (response_WriteHeader StatusOK newResponse) []));
    reflexivity.
Defined.

(** The 500 of the recovery carries the headers that the handler had set
    before it panicked: [Connection], [Content-Type] and
    [X-Content-Type-Options] are overwritten, and every header that is
    not among the ones that [http.Error] touches goes out as the handler
    left it. (Later versions of [http.Error] also remove
    [Content-Length] and other headers that describe the body; they are
    excluded here.) *)
Theorem recoverPanic_sends_headers_set_before_panic
    (next : Handler) (env : Env) (r : Request) (w : World)
    (v : string) (w1 : World) (key : string) :
  run env (next r) w = (Panicked v, w1) ->
  wroteHeader (resp w1) = false ->
  bodyHeader key = false ->
  let sent := sentHeader (resp (snd (run env (recoverPanic next r) w))) in
  sent !! key = handlerHeader (resp w1) !! key
  /\ sent !! "Connection" = Some ["close"]
  /\ sent !! "Content-Type" = Some ["text/plain; charset=utf-8"]
  /\ sent !! "X-Content-Type-Options" = Some ["nosniff"].
Proof.
  intros Hnext Hw1 Hkey.
  assert (Hk : key <> "Connection" /\ key <> "Content-Type"
               /\ key <> "X-Content-Type-Options").
  { unfold bodyHeader in Hkey. cbn [existsb] in Hkey.
    repeat split; intros ->; discriminate Hkey. }
  destruct Hk as (Hk1 & Hk2 & Hk3).
  unfold recoverPanic. rewrite run_deferRecover, Hnext.
  unfold logError, Error.
  cbn [run andThen resp stdout].
  unfold response_Write, response_WriteHeader, setHandlerHeader.
  cbn [wroteHeader status sentHeader written handlerHeader].
  rewrite Hw1.
  cbn [wroteHeader status sentHeader written handlerHeader].
  change (bodyAllowedForStatus StatusInternalServerError) with true.
  cbn [run snd resp sentHeader].
  repeat split.
  - now rewrite !lookup_insert_ne by congruence.
  - rewrite !lookup_insert_ne by discriminate. apply lookup_insert_eq.
  - rewrite !lookup_insert_ne by discriminate. apply lookup_insert_eq.
  - apply lookup_insert_eq.
Qed.

Lemma recoverPanic_sends_headers_set_before_panic_witness :
  let sent :=
    sentHeader (resp (snd (run sampleEnv (recoverPanic panicsAfterSetHeader sampleRequest)
                             (mkWorld newResponse [])))) in
  sent !! "Set-Cookie" = Some ["session=1"]
  /\ sent !! "Connection" = Some ["close"]
  /\ sent !! "Content-Type" = Some ["text/plain; charset=utf-8"]
  /\ sent !! "X-Content-Type-Options" = Some ["nosniff"].
Proof.
  pose proof (recoverPanic_sends_headers_set_before_panic panicsAfterSetHeader
                sampleEnv sampleRequest (mkWorld newResponse []) "boom"
                (mkWorld (setHandlerHeader (<["Set-Cookie" := ["session=1"]]> ∅)
                            newResponse) [])
                "Set-Cookie" eq_refl eq_refl eq_refl) as H.
  cbv zeta in H. destruct H as (H1 & H2 & H3 & H4).
  cbv zeta. split; [rewrite H1; vm_compute; reflexivity|].
  split; [exact H2|]. split; [exact H3|exact H4].
Defined.

(** What [logError] sends to the client depends neither on the error nor
    on the trace flag: no detail of the fault reaches the response. *)
Theorem logError_response_is_the_same_for_every_error
    (env : Env) (err1 err2 : string) (trace1 trace2 : bool) (w : World) :
  resp (snd (run env (logError err1 trace1) w))
  = resp (snd (run env (logError err2 trace2) w)).
Proof.
  unfold logError, Error.
  destruct trace1, trace2; cbn [run andThen resp stdout snd];
    repeat match goal with |- context [response_Write ?d ?x] =>
             destruct (response_Write d x) end;
    reflexivity.
Qed.

(** ** The redirect handler by method *)



(** ** Relative targets *)

Lemma Split_rooted p :
  HasPrefix p "/" = true -> HasPrefix (fst (GoPath.Split p)) "/" = true.
Proof.
  destruct p as [|c p]; [discriminate|].
  unfold HasPrefix at 1. cbn [String.prefix].
  destruct (Ascii.ascii_dec "/" c) as [<-|]; [|discriminate].
  intros _. cbn [GoPath.Split]. destruct (GoPath.Split p) as [d f].
  cbn. apply HasPrefix_slash.
Qed.

Lemma Cut_rooted sep s :
  sep <> "/"%char ->
  HasPrefix s "/" = true -> HasPrefix (fst (fst (Cut sep s))) "/" = true.
Proof.
  intros Hsep. destruct s as [|c s]; [discriminate|].
  unfold HasPrefix at 1. cbn [String.prefix].
  destruct (Ascii.ascii_dec "/" c) as [<-|]; [|discriminate].
  intros _. cbn [Cut].
  destruct (Ascii.eqb_spec "/" sep) as [E|_]; [now destruct Hsep|].
  destruct (Cut sep s) as [[b a] f]. cbn. apply HasPrefix_slash.
Qed.

Lemma hexEscapeNonASCII_rooted s :
  HasPrefix s "/" = true -> HasPrefix (hexEscapeNonASCII s) "/" = true.
Proof.
  destruct s as [|c s]; [discriminate|].
  unfold HasPrefix at 1. cbn [String.prefix].
  destruct (Ascii.ascii_dec "/" c) as [<-|]; [|discriminate].
  intros _. cbn. apply HasPrefix_slash.
Qed.

(** A relative target, resolved against a rooted request path, is a
    rooted path. *)
Lemma redirectTarget_rooted r url :
  isRelative url = true ->
  HasPrefix (NetURL.Path (URL r)) "/" = true ->
  HasPrefix (redirectTarget r url) "/" = true.
Proof.
  intros Hrel Hpath. unfold redirectTarget. rewrite Hrel.
  destruct (String.eqb_spec (NetURL.Path (URL r)) "") as [E|_];
    [rewrite E in Hpath; discriminate Hpath|].
  set (url1 := if (url =? "")%string || negb (HasPrefix url "/")
               then fst (GoPath.Split (NetURL.Path (URL r))) +:+ url else url).
  assert (H1 : HasPrefix url1 "/" = true).
  { unfold url1. destruct (String.eqb_spec url "") as [->|_]; cbn [orb].
    - now apply HasPrefix_app, Split_rooted.
    - destruct (HasPrefix url "/") eqn:E; cbn [negb]; [exact E|].
      now apply HasPrefix_app, Split_rooted. }
  pose proof (Cut_rooted "?" url1 ltac:(discriminate) H1) as H2.
  destruct (Cut "?" url1) as [[url2 q] found]. cbn [fst] in H2.
  apply HasPrefix_app.
  destruct (_ && _); [apply HasPrefix_app|]; now apply Clean_rooted.
Qed.

(** With a relative target, every request that reaches the handler is
    sent to a path on the same host: the [Location] header starts with a
    slash. *)
Theorem relative_target_gives_rooted_Location
    (cfg : Config) (env : Env) (r : Request) (out : list Line) :
  Mux.cleanPath (NetURL.Path (URL r)) = NetURL.Path (URL r) ->
  isRelative (redirect cfg) = true ->
  exists rsp out' loc,
    serveRequest (routes cfg) env r out = (Complete rsp, out')
    /\ sentHeader rsp !! "Location" = Some [loc]
    /\ HasPrefix loc "/" = true.
Proof.
  intros Hc Hrel.
  destruct (routes_canonical cfg env r out Hc) as (rsp & l & H & _ & Hloc).
  exists rsp; eexists; eexists. split; [exact H|]. split; [exact Hloc|].
  apply hexEscapeNonASCII_rooted, redirectTarget_rooted; [exact Hrel|].
  rewrite <- Hc. apply cleanPath_rooted.
Qed.

Lemma relative_target_gives_rooted_Location_witness :
  exists rsp out' loc,
    serveRequest (routes relativeConfig) sampleEnv otherRequest [] = (Complete rsp, out')
    /\ sentHeader rsp !! "Location" = Some [loc]
    /\ HasPrefix loc "/" = true.
Proof.
  apply (relative_target_gives_rooted_Location relativeConfig sampleEnv otherRequest []);
    reflexivity.
Defined.

(** ** What the access log records *)

Lemma length_append (s t : string) :
  String.length (s +:+ t) = String.length s + String.length t.
Proof.
  induction s as [|c s IH]; [reflexivity|].
  change (String c s +:+ t) with (String c (s +:+ t)).
  cbn [String.length]. now rewrite IH.
Qed.

Lemma response_Write_length data w :
  String.length (written (fst (response_Write data w)))
  = String.length (written w) + snd (response_Write data w).
Proof.
  unfold response_Write, response_WriteHeader.
  destruct (wroteHeader w); cbn [status written];
    match goal with |- context [bodyAllowedForStatus ?c] =>
      destruct (bodyAllowedForStatus c) end;
    cbn [fst snd written]; rewrite ?length_append; lia.
Qed.

(** The wrapper of the logging handler counts the bytes that go into the
    body. *)
Lemma observed_size env l p w :
  Handlers.rl_size (Handlers.observed env l p w) + String.length (written (resp w))
  = Handlers.rl_size l + String.length (written (resp (snd (run env p w)))).
Proof.
  revert l w; induction p as [| | ? ? IH | ? ? ? IH | ? ? IH | ? ? IH | ? ? IH
                              | ? ? ? IH | ? IH | ? IH | ? ? IH]; intros l w;
    cbn [Handlers.observed run snd]; auto;
    try (match goal with
         | |- context [Handlers.observed env ?l' ?k ?w'] => pose proof (IH l' w') as H'
         end;
         cbn [resp setHandlerHeader written Handlers.rl_size] in H'; exact H').
  - match goal with
    | |- context [Handlers.observed env ?l' ?k ?w'] => pose proof (IH l' w') as H'
    end.
    cbn [resp Handlers.rl_size] in H'. rewrite <- H'.
    unfold response_WriteHeader. now destruct (wroteHeader (resp w)).
  - pose proof (response_Write_length data (resp w)) as Hlen.
    destruct (response_Write data (resp w)) as [r n]. cbn [fst snd] in Hlen.
    specialize (IH n (Handlers.mkResponseLogger (Handlers.rl_status l)
                        (Handlers.rl_size l + n)) (mkWorld r (stdout w))).
    cbn [Handlers.rl_size resp] in IH. lia.
Qed.

(** The size in the access log line is the number of bytes that the
    wrapped handler has put into the body of the response. *)
Theorem loggingMiddleware_logs_the_body_size
    (next : Handler) (env : Env) (r : Request) (out : list Line) (w1 : World) :
  run env (next r) (mkWorld newResponse out) = (Returned, w1) ->
  exists l,
    run env (loggingMiddleware next r) (mkWorld newResponse out)
    = (Returned,
       mkWorld (resp w1)
         (stdout w1 ++ [AccessLine (Handlers.combinedLine r (now env) l)]))
    /\ cl_size (Handlers.combinedLine r (now env) l) = String.length (written (resp w1)).
Proof.
  intros Hnext. rewrite run_loggingMiddleware, Hnext.
  eexists; split; [reflexivity|].
  pose proof (observed_size env Handlers.makeLogger (next r) (mkWorld newResponse out))
    as Hsize.
  rewrite Hnext in Hsize. cbn in Hsize. cbn [Handlers.combinedLine cl_size]. lia.
Qed.

Lemma loggingMiddleware_logs_the_body_size_witness :
  exists l,
    run sampleEnv (loggingMiddleware (catchAllHandler exampleConfig) sampleRequest)
      (mkWorld newResponse [])
    = (Returned,
       mkWorld (resp (snd (run sampleEnv (catchAllHandler exampleConfig sampleRequest)
                             (mkWorld newResponse []))))
         ([] ++ [AccessLine (Handlers.combinedLine sampleRequest (now sampleEnv) l)]))
    /\ cl_size (Handlers.combinedLine sampleRequest (now sampleEnv) l) = 54.
Proof.
  apply (loggingMiddleware_logs_the_body_size (catchAllHandler exampleConfig) sampleEnv
           sampleRequest []
           (snd (run sampleEnv (catchAllHandler exampleConfig sampleRequest)
                   (mkWorld newResponse [])))).
  vm_compute. reflexivity.
Defined.




(** The access log can name a status that the client never got: when a
    handler panics after it has sent its header, the client keeps the
    status of that header, while the line in the access log says 500. *)
Theorem access_log_says_500_whatever_status_went_out
    (final : Handler) (env : Env) (r : Request) (out : list Line)
    (v : string) (w1 : World) :
  Mux.cleanPath (NetURL.Path (URL r)) = NetURL.Path (URL r) ->
  run env (final r) (mkWorld newResponse out) = (Panicked v, w1) ->
  wroteHeader (resp w1) = true ->
  exists rsp l out',
    serveRequest (routesFor final) env r out
    = (Complete rsp, (out' ++ [AccessLine (Handlers.combinedLine r (now env) l)])%list)
    /\ status rsp = status (resp w1)
    /\ cl_status (Handlers.combinedLine r (now env) l) = 500%Z.
Proof.
  intros Hc Hfinal Hw1. unfold serveRequest.
  rewrite (routesFor_canonical _ _ Hc), run_loggingMiddleware.
  assert (Hst : Handlers.rl_status
                  (Handlers.observed env Handlers.makeLogger (recoverPanic final r)
                     (mkWorld newResponse out)) = 500%Z).
  { unfold recoverPanic. rewrite observed_deferRecover, Hfinal.
    apply observed_logError. }
  unfold recoverPanic at 1. rewrite run_deferRecover, Hfinal.
  unfold logError, Error.
  cbn [run andThen resp stdout].
  unfold response_Write, response_WriteHeader, setHandlerHeader.
  cbn [wroteHeader status sentHeader written handlerHeader].
  rewrite Hw1.
  cbn [wroteHeader status sentHeader written handlerHeader].
  destruct (bodyAllowedForStatus (status (resp w1)));
    cbn [run resp stdout]; unfold finishRequest;
    cbn [wroteHeader]; rewrite ?Hw1;
    (eexists; eexists; eexists; split; [reflexivity|]);
    (split; [reflexivity|exact Hst]).
Qed.

Lemma access_log_says_500_whatever_status_went_out_witness :
  exists rsp l out',
    serveRequest (routesFor panicsAfterHeader) sampleEnv sampleRequest []
    = (Complete rsp,
       (out' ++ [AccessLine (Handlers.combinedLine sampleRequest (now sampleEnv) l)])%list)
    /\ status rsp = 200%Z
    /\ cl_status (Handlers.combinedLine sampleRequest (now sampleEnv) l) = 500%Z.
Proof.
  apply (access_log_says_500_whatever_status_went_out panicsAfterHeader sampleEnv
           sampleRequest [] "boom"
           (mkWorld (response_WriteHeader StatusOK newResponse) []));
    reflexivity.
Defined.

(** ** Path cleaning reaches a fixed point *)

Lemma str_app_cons c (s t : string) : String c s +:+ t = String c (s +:+ t).
Proof. reflexivity. Qed.


Lemma str_app_nil_r (s : string) : s +:+ "" = s.
Proof.
  induction s as [|c s IH]; [reflexivity|].
  rewrite str_app_cons. now rewrite IH.
Qed.



Lemma Split_not_nil sep s : GoStrings.Split sep s <> [].
Proof.
  destruct s as [|c s]; cbn [GoStrings.Split]; [discriminate|].
  destruct (Ascii.eqb c sep); [discriminate|].
  destruct (GoStrings.Split sep s); discriminate.
Qed.






















(** ** The process: what the flags and the signals do not change *)

(** The logger of [main] writes entries of level info, error and fatal
    with and without the debug flag. *)
Lemma logrus_write_enabled cfg lvl msg lines :
  lvl = InfoLevel \/ lvl = ErrorLevel \/ lvl = FatalLevel ->
  logrus_write (logLevel cfg) lvl msg lines = (lines ++ [LogrusLine lvl msg])%list.
Proof.
  unfold logrus_write, logLevel.
  intros [-> | [-> | ->]]; now destruct (debugOutput cfg).
Qed.

Lemma step_differByDebugLine cfg first e p q :
  differByDebugLine first p q ->
  match step (withDebug false cfg) e p, step (withDebug true cfg) e q with
  | Some p', Some q' => differByDebugLine first p' q'
  | None, None => True
  | _, _ => False
  end.
Proof.
  intros (Hm & Hs & Hc & tail & Hp & Hq).
  unfold step. rewrite <- Hm, <- Hs, <- Hc.
  destruct (mainpc p) eqn:Em; destruct e as [s| |err| |r]; try exact I;
    destruct (servepc p) eqn:Es; destruct (sigchan p) eqn:Ec; try exact I;
    unfold differByDebugLine; cbn [mainpc servepc sigchan out];
    unfold serveLog, exitLog;
    try destruct r;
    rewrite ?logrus_write_enabled by auto;
    (split; [reflexivity|]); (split; [reflexivity|]); (split; [reflexivity|]);
    rewrite Hp, Hq;
    try (now exists tail);
    eexists; cbn [app]; split; reflexivity.
Qed.

Lemma exec_differByDebugLine cfg first evs p q :
  differByDebugLine first p q ->
  match exec (withDebug false cfg) evs p, exec (withDebug true cfg) evs q with
  | Some p', Some q' => differByDebugLine first p' q'
  | None, None => True
  | _, _ => False
  end.
Proof.
  revert p q; induction evs as [|e evs IH]; intros p q H; cbn [exec]; [exact H|].
  pose proof (step_differByDebugLine cfg first e p q H) as Hstep.
  destruct (step (withDebug false cfg) e p) as [p'|],
           (step (withDebug true cfg) e q) as [q'|]; try contradiction; [|exact I].
  now apply IH.
Qed.

(** The debug flag changes what the process does in one way only: the
    line [DEBUG mode enabled] follows the line of the start. Whatever
    happens, the two threads and the channel are in the same state with
    and without the flag, and every other line of the output is the
    same. *)
Theorem debug_flag_only_adds_its_line (cfg : Config) (evs : list Event) :
  match main (withDebug false cfg) evs, main (withDebug true cfg) evs with
  | Some p, Some q =>
      mainpc p = mainpc q /\ servepc p = servepc q /\ sigchan p = sigchan q
      /\ exists tail,
           out p = LogrusLine InfoLevel ("Starting server on " +:+ host cfg) :: tail
           /\ out q = LogrusLine InfoLevel ("Starting server on " +:+ host cfg)
                      :: LogrusLine DebugLevel "DEBUG mode enabled" :: tail
  | None, None => True
  | _, _ => False
  end.
Proof.
  unfold main.
  apply (exec_differByDebugLine cfg
           (LogrusLine InfoLevel ("Starting server on " +:+ host cfg)) evs).
  repeat split. exists []. split; reflexivity.
Qed.

Lemma step_sameButSignal cfg e e' p q :
  sameButSignal e e' -> sameButChannel p q ->
  match step cfg e p, step cfg e' q with
  | Some p', Some q' => sameButChannel p' q'
  | None, None => True
  | _, _ => False
  end.
Proof.
  intros He (Hm & Hs & Ho & Hc).
  assert (Hc' : match sigchan p, sigchan q with
                | Some _, Some _ | None, None => True
                | _, _ => False
                end).
  { destruct (sigchan p), (sigchan q); try exact I;
      [now destruct Hc as [_ Hc]; specialize (Hc eq_refl)
      |now destruct Hc as [Hc _]; specialize (Hc eq_refl)]. }
  unfold step. rewrite <- Hm, <- Hs, <- Ho.
  destruct He as [<-|(s & s' & -> & ->)];
    destruct (mainpc p) eqn:Em; try exact I;
    try destruct e as [s0| |err| |r]; try exact I;
    destruct (servepc p) eqn:Es; try exact I;
    destruct (sigchan p), (sigchan q); try contradiction; try exact I;
    unfold sameButChannel; cbn [mainpc servepc sigchan out];
    repeat split; congruence.
Qed.

(** SIGINT and SIGTERM are interchangeable: two executions that differ
    only in which of the two signals is delivered at each delivery go
    through the same states of both threads and write the same output. *)
Theorem SIGINT_and_SIGTERM_act_alike (cfg : Config) (evs evs' : list Event) :
  Forall2 sameButSignal evs evs' ->
  match main cfg evs, main cfg evs' with
  | Some p, Some q =>
      mainpc p = mainpc q /\ servepc p = servepc q /\ out p = out q
      /\ (sigchan p = None <-> sigchan q = None)
  | None, None => True
  | _, _ => False
  end.
Proof.
  unfold main.
  assert (H0 : sameButChannel (start cfg) (start cfg)) by (now repeat split).
  revert H0. generalize (start cfg) at 1 3. generalize (start cfg).
  intros q p H0 Hevs. revert p q H0.
  induction Hevs as [|e e' evs evs' He _ IH]; intros p q H0; cbn [exec]; [exact H0|].
  pose proof (step_sameButSignal cfg e e' p q He H0) as Hstep.
  destruct (step cfg e p) as [p'|], (step cfg e' q) as [q'|]; try contradiction;
    [|exact I].
  now apply IH.
Qed.

Lemma SIGINT_and_SIGTERM_act_alike_witness :
  match main defaultConfig [Deliver SIGINT; Receive; ShutdownReturns None],
        main defaultConfig [Deliver SIGTERM; Receive; ShutdownReturns None] with
  | Some p, Some q =>
      mainpc p = mainpc q /\ servepc p = servepc q /\ out p = out q
      /\ (sigchan p = None <-> sigchan q = None)
  | None, None => True
  | _, _ => False
  end.
Proof.
  apply (SIGINT_and_SIGTERM_act_alike defaultConfig
           [Deliver SIGINT; Receive; ShutdownReturns None]
           [Deliver SIGTERM; Receive; ShutdownReturns None]).
  constructor; [right; now exists SIGINT, SIGTERM|].
  constructor; [now left|]. constructor; [now left|constructor].
Defined.

(** While [main] waits, what is in the channel stays there. *)
Lemma exec_keeps_the_signal cfg evs p q s0 :
  sigchan p = Some s0 ->
  exec cfg evs p = Some q ->
  mainpc q = AwaitSignal ->
  sigchan q = Some s0.
Proof.
  revert p; induction evs as [|e evs IH]; intros p Hc Hex Hq; cbn [exec] in Hex.
  - now injection Hex as <-.
  - destruct (step cfg e p) as [p'|] eqn:Hstep; [|discriminate Hex].
    destruct (mainpc p') eqn:Hp'.
    + apply (IH p'); auto. step_cases Hstep; congruence.
    + destruct (receives_after_wait cfg evs p' q ltac:(congruence) Hex) as [_ H].
      contradiction.
    + destruct (receives_after_wait cfg evs p' q ltac:(congruence) Hex) as [_ H].
      contradiction.
Qed.

(** A signal that is delivered while [main] has not yet received is not
    lost: as long as [main] waits, the channel holds a signal (the first
    one that found the channel empty), and the receive can happen. *)
Theorem delivered_signal_waits_in_the_channel
    (cfg : Config) (p : Process) (s : Signal) (evs : list Event) (q : Process) :
  exec cfg (Deliver s :: evs) p = Some q ->
  mainpc q = AwaitSignal ->
  (exists s0, sigchan q = Some s0 /\ (sigchan p = None -> s0 = s))
  /\ exists q', step cfg Receive q = Some q' /\ mainpc q' = InShutdown.
Proof.
  intros Hex Hq. cbn [exec] in Hex.
  destruct (step cfg (Deliver s) p) as [p'|] eqn:Hstep; [|discriminate Hex].
  assert (Hc : exists s0, sigchan p' = Some s0 /\ (sigchan p = None -> s0 = s)).
  { step_cases Hstep; eexists; split; try reflexivity; congruence. }
  destruct Hc as (s0 & Hc & Hs0).
  pose proof (exec_keeps_the_signal cfg evs p' q s0 Hc Hex Hq) as Hcq.
  split; [now exists s0|].
  unfold step. rewrite Hq, Hcq. eexists; split; reflexivity.
Qed.

Lemma delivered_signal_waits_in_the_channel_witness :
  (exists s0,
      sigchan (mkProcess AwaitSignal ServeFinished (Some SIGINT)
                 [LogrusLine InfoLevel "Starting server on 0.0.0.0:8080";
                  LogrusLine ErrorLevel (errorText bindFailure)]) = Some s0
      /\ (sigchan (start defaultConfig) = None -> s0 = SIGINT))
  /\ exists q',
       step defaultConfig Receive
         (mkProcess AwaitSignal ServeFinished (Some SIGINT)
            [LogrusLine InfoLevel "Starting server on 0.0.0.0:8080";
             LogrusLine ErrorLevel (errorText bindFailure)]) = Some q'
       /\ mainpc q' = InShutdown.
Proof.
  apply (delivered_signal_waits_in_the_channel defaultConfig (start defaultConfig) SIGINT
           [ServeReturns bindFailure; Deliver SIGTERM; ServeLogs]);
    reflexivity.
Defined.

Lemma errorLines_app l1 l2 : errorLines (l1 ++ l2) = errorLines l1 + errorLines l2.
Proof. unfold errorLines. now rewrite List.filter_app, length_app. Qed.

(** Lines of level error come from the goroutine only, and it writes
    one: standard output holds exactly one such line once the goroutine
    has finished, and none before. *)
Theorem one_error_line_when_the_goroutine_has_finished
    (cfg : Config) (evs : list Event) (p : Process) :
  main cfg evs = Some p ->
  errorLines (out p) = match servepc p with ServeFinished => 1 | _ => 0 end.
Proof.
  unfold main.
  assert (H0 : errorLines (out (start cfg))
               = match servepc (start cfg) with ServeFinished => 1 | _ => 0 end).
  { unfold start, logrus_write, logLevel. cbn [out servepc].
    now destruct (debugOutput cfg). }
  revert H0. generalize (start cfg). intros p0 H0 Hex. revert p0 H0 Hex.
  induction evs as [|e evs IH]; intros p0 H0 Hex; cbn [exec] in Hex.
  - now injection Hex as <-.
  - destruct (step cfg e p0) as [p'|] eqn:Hstep; [|discriminate Hex].
    apply (IH p'); [|exact Hex].
    step_cases Hstep; unfold serveLog, exitLog;
      repeat match goal with
             | H : servepc p0 = _ |- _ => rewrite H in H0
             | |- context [match ?x with Some _ => _ | None => _ end] => destruct x
             end;
      rewrite ?logrus_write_enabled by auto; rewrite ?errorLines_app;
      cbn [errorLines List.filter isErrorLine length]; lia.
Qed.

Lemma one_error_line_when_the_goroutine_has_finished_witness :
  errorLines
    [LogrusLine InfoLevel "Starting server on 0.0.0.0:8080";
     LogrusLine ErrorLevel "http: Server closed";
     LogrusLine InfoLevel "shutting down"] = 1.
Proof.
  apply (one_error_line_when_the_goroutine_has_finished defaultConfig
           (signalled ++ [ServeReturns ErrServerClosed; ServeLogs; ShutdownReturns None])
           (mkProcess (Exited 0) ServeFinished None
              [LogrusLine InfoLevel "Starting server on 0.0.0.0:8080";
               LogrusLine ErrorLevel "http: Server closed";
               LogrusLine InfoLevel "shutting down"])).
  reflexivity.
Defined.

(** ** The command line *)

Lemma parse_stops_bounded (PD : string -> option Z) (n : nat) :
  forall args cfg0 cfg a post,
    length args <= n ->
    Flag.parse PD cfg0 args = Flag.Parsed cfg [] ->
    Flag.shape a = Flag.NotFlag ->
    Flag.parse PD cfg0 (args ++ a :: post) = Flag.Parsed cfg (a :: post).
Proof.
  induction n as [|n IH]; intros args cfg0 cfg a post Hlen Hparse Ha.
  - destruct args; [|cbn in Hlen; lia].
    cbn [Flag.parse app] in *. rewrite Ha. now injection Hparse as ->.
  - destruct args as [|s rest].
    + cbn [Flag.parse app] in *. rewrite Ha. now injection Hparse as ->.
    + cbn [length] in Hlen. cbn [Flag.parse app] in *.
      destruct (Flag.shape s) as [| | |name value]; try discriminate Hparse.
      * injection Hparse as -> ->. reflexivity.
      * destruct (String.eqb name "debug").
        { destruct value as [v|].
          - destruct (Flag.ParseBool v); [|discriminate Hparse].
            apply IH; [lia|assumption..].
          - apply IH; [lia|assumption..]. }
        destruct (Flag.isValued name).
        { destruct value as [v|].
          - destruct (Flag.setValued PD name v cfg0); [|discriminate Hparse].
            apply IH; [lia|assumption..].
          - destruct rest as [|v rest']; [discriminate Hparse|].
            cbn [app]. destruct (Flag.setValued PD name v cfg0); [|discriminate Hparse].
            apply IH; [cbn [length] in Hlen; lia|assumption..]. }
        destruct (_ || _); discriminate Hparse.
Qed.

(** The parse of the flags ends at the first argument that is not a
    flag: that argument and everything behind it, flags included, is
    left over and changes nothing. In particular the boolean flag
    [-debug] does not take the next argument as its value. *)
Theorem flags_behind_the_first_other_argument_are_ignored
    (PD : string -> option Z) (args : list string) (cfg0 cfg : Config)
    (a : string) (post : list string) :
  Flag.parse PD cfg0 args = Flag.Parsed cfg [] ->
  Flag.shape a = Flag.NotFlag ->
  Flag.parse PD cfg0 (args ++ a :: post) = Flag.Parsed cfg (a :: post).
Proof.
  apply (parse_stops_bounded PD (length args)). lia.
Qed.

Lemma flags_behind_the_first_other_argument_are_ignored_witness :
  Flag.Parse sampleParseDuration
    (["-graceful-timeout"; "9s"; "-debug"]
     ++ "false" :: ["-redirect=https://example.com"])
  = Flag.Parsed (mkConfig "0.0.0.0:8080" "https://google.com" true 9000000000)
      ("false" :: ["-redirect=https://example.com"]).
Proof.
  apply (flags_behind_the_first_other_argument_are_ignored sampleParseDuration
           ["-graceful-timeout"; "9s"; "-debug"] defaultConfig
           (mkConfig "0.0.0.0:8080" "https://google.com" true 9000000000)
           "false" ["-redirect=https://example.com"]);
    reflexivity.
Defined.

(** The three flags with a value can be written [-name value],
    [-name=value] or with two dashes; the parse is the same. *)
Theorem valued_flag_forms_agree
    (PD : string -> option Z) (cfg : Config) (name v : string) (rest : list string) :
  Flag.isValued name = true ->
  Flag.parse PD cfg (("-" +:+ name) :: v :: rest)
  = Flag.parse PD cfg (("-" +:+ name +:+ "=" +:+ v) :: rest)
  /\ Flag.parse PD cfg (("--" +:+ name) :: v :: rest)
     = Flag.parse PD cfg (("-" +:+ name +:+ "=" +:+ v) :: rest)
  /\ Flag.parse PD cfg (("--" +:+ name +:+ "=" +:+ v) :: rest)
     = Flag.parse PD cfg (("-" +:+ name +:+ "=" +:+ v) :: rest).
Proof.
  unfold Flag.isValued. intros H.
  destruct (String.eqb_spec name "host") as [->|_];
    [|destruct (String.eqb_spec name "redirect") as [->|_];
      [|destruct (String.eqb_spec name "graceful-timeout") as [->|_];
        [|discriminate H]]];
    repeat split; reflexivity.
Qed.

Lemma valued_flag_forms_agree_witness :
  Flag.parse sampleParseDuration defaultConfig ["-graceful-timeout"; "9s"]
  = Flag.parse sampleParseDuration defaultConfig ["-graceful-timeout=9s"].
Proof.
  apply (valued_flag_forms_agree sampleParseDuration defaultConfig "graceful-timeout"
           "9s" []).
  reflexivity.
Defined.

(** ** Every request *)

(** Whatever the requests are, each one of a sequence is answered with a
    complete response of status 301: by the redirect handler when its
    path is canonical, by the router otherwise. *)
Theorem Serve_routes_always_301
    (cfg : Config) (reqs : list (Env * Request)) (out : list Line) :
  Forall (fun reply => exists rsp, reply = Complete rsp /\ status rsp = 301%Z)
    (fst (Serve (routes cfg) reqs out))
  /\ length (fst (Serve (routes cfg) reqs out)) = length reqs.
Proof.
  revert out; induction reqs as [|[env r] reqs IH]; intros out; cbn [Serve].
  - split; [constructor|reflexivity].
  - destruct (routes_status_301 cfg env r out) as (rsp & out1 & H & Hst).
    rewrite H. specialize (IH out1).
    destruct (Serve (routes cfg) reqs out1) as [replies out2]. cbn [fst] in *.
    destruct IH as [IH1 IH2]. split.
    + constructor; [now exists rsp|exact IH1].
    + cbn [length]. now rewrite IH2.
Qed.

(** A request whose path is not canonical is answered by the router
    alone: status 301, as [Location] the canonical path with the query
    kept, no body, and nothing on standard output; neither middleware
    runs, so the request is not in the access log. *)
Theorem request_with_unclean_path_is_redirected_unlogged
    (cfg : Config) (env : Env) (r : Request) (out : list Line) :
  Mux.cleanPath (NetURL.Path (URL r)) <> NetURL.Path (URL r) ->
  exists rsp,
    serveRequest (routes cfg) env r out = (Complete rsp, out)
    /\ status rsp = 301%Z
    /\ written rsp = ""
    /\ sentHeader rsp !! "Location"
       = Some [NetURL.URL_String
                 (NetURL.mkURL (NetURL.Scheme (URL r)) (NetURL.Host (URL r))
                    (Mux.cleanPath (NetURL.Path (URL r))) (NetURL.RawQuery (URL r)))].
Proof.
  intros Hc. unfold serveRequest, routes.
  rewrite (routesFor_not_canonical _ _ Hc).
  cbn [run resp stdout]. unfold response_WriteHeader, setHandlerHeader, finishRequest.
  cbn [wroteHeader newResponse handlerHeader status sentHeader written].
  eexists; split; [reflexivity|]. split; [reflexivity|]. split; [reflexivity|].
  cbn [sentHeader]. apply lookup_insert_eq.
Qed.

Lemma request_with_unclean_path_is_redirected_unlogged_witness :
  exists rsp,
    serveRequest (routes exampleConfig) sampleEnv doubledSlashRequest [] = (Complete rsp, [])
    /\ status rsp = 301%Z
    /\ written rsp = ""
    /\ sentHeader rsp !! "Location"
       = Some [NetURL.URL_String (NetURL.mkURL "" "" "/anything" "x=1")].
Proof.
  apply (request_with_unclean_path_is_redirected_unlogged exampleConfig sampleEnv
           doubledSlashRequest []).
  vm_compute. discriminate.
Defined.
